(** * Calvero scheduling: availability resolution and booking commit

    A shallow embedding of the availability engine of the scheduling
    application ([src/lib/availability.ts], the public booking actions with
    [getAvailableSlots], [getAvailableDates] and [createBooking], and
    [saveAvailability] of [src/lib/actions/availability.ts]) together with the
    properties its specification states about them.

    Modelling conventions.
    - An instant (a JavaScript [Date], or the ISO string the store keeps for
      it) is the number of milliseconds since the epoch, a [Z]; [parseISO] and
      [toISOString] are then the identity and are not written.
    - The local time zone is a fixed offset [tz] (milliseconds east of UTC),
      so a local calendar day always lasts [msPerDay] milliseconds.
    - Durations are whole numbers of minutes.
    - A [while] loop is a function with a [fuel] argument: [None] means the
      fuel ran out before the loop condition became false.
    - [arr.push(x)] inside a loop becomes the list the loop returns, in push
      order.
    - What a request reads from its environment is an argument: the clock
      ([now]), the identifiers drawn by [crypto.randomUUID], the [_id] the
      store gives to a created document, the session.
    - Reads and writes of the document store succeed; the calls of the
      calendar integration return or throw. *)

From Stdlib Require Import ZArith Lia Bool Sorted.
From stdpp Require Import base option list gmap strings sorting.

Open Scope Z_scope.

(** ** Time (the functions taken from date-fns) *)

Definition msPerMinute : Z := 60000.
Definition msPerDay : Z := 86400000.

Definition addMinutes (date amount : Z) : Z := date + amount * msPerMinute.
Definition addDays (date amount : Z) : Z := date + amount * msPerDay.

Section LocalTime.
(** Offset of the local time zone, in milliseconds east of UTC. *)
Variable tz : Z.

Definition startOfDay (date : Z) : Z := date - (date + tz) mod msPerDay.
Definition endOfDay (date : Z) : Z := startOfDay date + (msPerDay - 1).

(** Days since 1970-01-01 of the local calendar day of an instant. *)
Definition localDay (date : Z) : Z := (date + tz) / msPerDay.
End LocalTime.

(** [isWithinInterval(date, {start, end})]: closed on both ends. *)
Definition isWithinInterval (date start_ end_ : Z) : bool :=
  (start_ <=? date) && (date <=? end_).

(** *** [format(date, "yyyy-MM-dd")] *)

(** Proleptic Gregorian date of a day number (days since 1970-01-01). *)
Definition civilFromDays (z : Z) : Z * Z * Z :=
  let z := z + 719468 in
  let era := z / 146097 in
  let doe := z mod 146097 in
  let yoe := (doe - doe / 1460 + doe / 36524 - doe / 146096) / 365 in
  let doy := doe - (365 * yoe + yoe / 4 - yoe / 100) in
  let mp := (5 * doy + 2) / 153 in
  let d := doy - (153 * mp + 2) / 5 + 1 in
  let m := if mp <? 10 then mp + 3 else mp - 9 in
  let y := yoe + era * 400 + (if m <=? 2 then 1 else 0) in
  (y, m, d).

Definition digitChar (n : Z) : string :=
  String (Ascii.ascii_of_nat (48 + Z.to_nat (n mod 10))) EmptyString.

Fixpoint padDigits (width : nat) (n : Z) : string :=
  match width with
  | O => EmptyString
  | S w => String.append (padDigits w (n / 10)) (digitChar n)
  end.

(** The rendering is the one of date-fns for years 0 to 9999. *)
Definition formatYMD (tz date : Z) : string :=
  let '(y, m, d) := civilFromDays (localDay tz date) in
  String.append (padDigits 4 y)
    (String.append "-" (String.append (padDigits 2 m)
      (String.append "-" (padDigits 2 d)))).

(** ** Types of [src/lib/availability.ts] *)

Record AvailabilitySlot := {
  _key : string;
  startDateTime : Z;
  endDateTime : Z;
}.

Record BookingSlot := {
  _id : string;
  startTime : Z;
  endTime : Z;
}.

Record BusyTime := {
  busy_start : Z;
  busy_end : Z;
}.

(** [TimeSlot], the [{ start: Date; end: Date }] of the results. *)
Record TimeSlot := {
  slot_start : Z;
  slot_end : Z;
}.

(** ** Interval predicates *)

(** The half-open overlap test, written inline at every use in the source:
    [aStart < bEnd && aEnd > bStart]. *)
Definition overlaps (aStart aEnd bStart bEnd : Z) : bool :=
  (aStart <? bEnd) && (aEnd >? bStart).

(** The filter callback selecting the availability blocks of a day. *)
Definition onDay (dayStart dayEnd : Z) (slot : AvailabilitySlot) : bool :=
  let slotStart := startDateTime slot in
  let slotEnd := endDateTime slot in
  isWithinInterval slotStart dayStart dayEnd
  || isWithinInterval slotEnd dayStart dayEnd
  || ((slotStart <=? dayStart) && (slotEnd >=? dayEnd)).

(** Clamping of a window to the day bounds. *)
Definition clampStart (dayStart : Z) (availSlot : AvailabilitySlot) : Z :=
  let availStart := startDateTime availSlot in
  if availStart <? dayStart then dayStart else availStart.

Definition clampEnd (dayEnd : Z) (availSlot : AvailabilitySlot) : Z :=
  let availEnd := endDateTime availSlot in
  if availEnd >? dayEnd then dayEnd else availEnd.

Definition hasBookingConflict (bookings : list BookingSlot)
    (currentStart currentEnd : Z) : bool :=
  existsb (fun booking =>
    overlaps currentStart currentEnd (startTime booking) (endTime booking))
    bookings.

Definition hasBusyConflict (busyTimes : list BusyTime)
    (currentStart currentEnd : Z) : bool :=
  existsb (fun busy =>
    overlaps currentStart currentEnd (busy_start busy) (busy_end busy))
    busyTimes.

(** ** [computeAvailableSlots] *)

(** The inner [while] loop of [computeAvailableSlots] for one window. *)
Fixpoint computeWindowSlots (fuel : nat) (now : Z)
    (bookings : list BookingSlot) (busyTimes : list BusyTime)
    (slotDurationMinutes slotEnd currentStart : Z) : option (list TimeSlot) :=
  match fuel with
  | O => None
  | S fuel' =>
    if addMinutes currentStart slotDurationMinutes <=? slotEnd then
      let currentEnd := addMinutes currentStart slotDurationMinutes in
      if currentStart <? now then
        computeWindowSlots fuel' now bookings busyTimes
          slotDurationMinutes slotEnd currentEnd
      else
        rest ← computeWindowSlots fuel' now bookings busyTimes
                  slotDurationMinutes slotEnd currentEnd;
        if negb (hasBookingConflict bookings currentStart currentEnd)
           && negb (hasBusyConflict busyTimes currentStart currentEnd)
        then Some ({| slot_start := currentStart; slot_end := currentEnd |}
                     :: rest)
        else Some rest
    else Some []
  end.

(** The [for ... of availabilityForDate] loop around it. *)
Fixpoint computeSlotsOfWindows (fuel : nat) (now dayStart dayEnd : Z)
    (bookings : list BookingSlot) (busyTimes : list BusyTime)
    (slotDurationMinutes : Z) (availabilityForDate : list AvailabilitySlot)
    : option (list TimeSlot) :=
  match availabilityForDate with
  | [] => Some []
  | availSlot :: others =>
    let slotStart := clampStart dayStart availSlot in
    let slotEnd := clampEnd dayEnd availSlot in
    here ← computeWindowSlots fuel now bookings busyTimes
              slotDurationMinutes slotEnd slotStart;
    later ← computeSlotsOfWindows fuel now dayStart dayEnd bookings busyTimes
               slotDurationMinutes others;
    Some (here ++ later)
  end.

(** [now] is the value of [new Date()] read at the start of the call. *)
Definition computeAvailableSlots (fuel : nat) (tz now : Z)
    (availability : list AvailabilitySlot) (bookings : list BookingSlot)
    (date slotDurationMinutes : Z) (busyTimes : list BusyTime)
    : option (list TimeSlot) :=
  let dayStart := startOfDay tz date in
  let dayEnd := endOfDay tz date in
  let availabilityForDate :=
    List.filter (onDay dayStart dayEnd) availability in
  computeSlotsOfWindows fuel now dayStart dayEnd bookings busyTimes
    slotDurationMinutes availabilityForDate.

(** ** [checkDayHasAvailableSlot] and [computeAvailableDates] *)

(** The [while] loop of the probe for one window: [Some true] is the early
    [return true], [Some false] the normal end of the loop. *)
Fixpoint probeWindow (fuel : nat)
    (bookings : list BookingSlot) (busyTimes : list BusyTime)
    (slotDurationMinutes slotEnd currentStart : Z) : option bool :=
  match fuel with
  | O => None
  | S fuel' =>
    if addMinutes currentStart slotDurationMinutes <=? slotEnd then
      let currentEnd := addMinutes currentStart slotDurationMinutes in
      if negb (hasBookingConflict bookings currentStart currentEnd)
         && negb (hasBusyConflict busyTimes currentStart currentEnd)
      then Some true
      else probeWindow fuel' bookings busyTimes
             slotDurationMinutes slotEnd currentEnd
    else Some false
  end.

Fixpoint checkDayHasAvailableSlot (fuel : nat)
    (availabilityForDate : list AvailabilitySlot)
    (bookings : list BookingSlot) (dayStart dayEnd slotDurationMinutes : Z)
    (busyTimes : list BusyTime) : option bool :=
  match availabilityForDate with
  | [] => Some false
  | availSlot :: others =>
    let slotStart := clampStart dayStart availSlot in
    let slotEnd := clampEnd dayEnd availSlot in
    found ← probeWindow fuel bookings busyTimes
               slotDurationMinutes slotEnd slotStart;
    if (found : bool) then Some true
    else checkDayHasAvailableSlot fuel others bookings dayStart dayEnd
           slotDurationMinutes busyTimes
  end.

(** The [while (currentDate <= endDate)] loop of [computeAvailableDates];
    [today] is [startOfDay(new Date())]. *)
Fixpoint datesLoop (fuel : nat) (tz today : Z)
    (availability : list AvailabilitySlot) (bookings : list BookingSlot)
    (endDate slotDurationMinutes : Z) (busyTimes : list BusyTime)
    (currentDate : Z) : option (list string) :=
  match fuel with
  | O => None
  | S fuel' =>
    if currentDate <=? endDate then
      let continue_ :=
        datesLoop fuel' tz today availability bookings endDate
          slotDurationMinutes busyTimes (addDays currentDate 1) in
      if currentDate <? today then continue_
      else
        let dayStart := startOfDay tz currentDate in
        let dayEnd := endOfDay tz currentDate in
        let availabilityForDate :=
          List.filter (onDay dayStart dayEnd) availability in
        if (0 <? length availabilityForDate)%nat then
          hasAvailableSlot ← checkDayHasAvailableSlot fuel' availabilityForDate
                                bookings dayStart dayEnd slotDurationMinutes
                                busyTimes;
          rest ← continue_;
          if (hasAvailableSlot : bool)
          then Some (formatYMD tz currentDate :: rest)
          else Some rest
        else continue_
    else Some []
  end.

Definition computeAvailableDates (fuel : nat) (tz now : Z)
    (availability : list AvailabilitySlot) (bookings : list BookingSlot)
    (startDate endDate slotDurationMinutes : Z) (busyTimes : list BusyTime)
    : option (list string) :=
  let currentDate := startOfDay tz startDate in
  let today := startOfDay tz now in
  datesLoop fuel tz today availability bookings endDate slotDurationMinutes
    busyTimes currentDate.

(** ** Errors *)

(** [throw new Error(message)]; a failure of an external service is an error
    with whatever message the service gave. *)
Inductive Error := Err (message : string).

Inductive result (A : Type) :=
  | Ok (a : A)
  | Throw (e : Error).
Arguments Ok {A} a.
Arguments Throw {A} e.

Definition HostNotFound : Error := Err "Host not found".
Definition QuotaExceeded : Error :=
  Err "Host has reached their monthly booking limit".
Definition SlotUnavailable : Error :=
  Err "This time slot is no longer available".
Definition Unauthorized : Error := Err "Unauthorized".
Definition UserNotFoundInClerk : Error := Err "User not found in Clerk".
Definition DocumentNotFound : Error := Err "Document not found".

(** JavaScript truthiness of an optional string: [undefined], [null] and the
    empty string are falsy. *)
Definition truthy (s : option string) : bool :=
  match s with
  | Some EmptyString => false
  | Some _ => true
  | None => false
  end.

(** ** The document store *)

Record ConnectedAccount := {
  isDefault : bool;
  accessToken : option string;
  refreshToken : option string;
}.

Record User := {
  clerkId : string;
  user_name : string;
  user_email : option string;
  user_slug : option string;
  availability : option (list AvailabilitySlot);
  connectedAccounts : option (list ConnectedAccount);
}.

Record Booking := {
  bk_host : string;
  bk_meetingType : option string;
  bk_guestName : string;
  bk_guestEmail : string;
  bk_startTime : Z;
  bk_endTime : Z;
  bk_googleEventId : option string;
  bk_meetLink : option string;
  bk_status : string;
  bk_notes : option string;
}.

Record MeetingType := {
  mt_host : string;
  mt_name : option string;
  mt_slug : option string;
  mt_duration : Z;
}.

(** Documents by [_id], one map per [_type]. *)
Record Store := {
  users : gmap string User;
  bookings : gmap string Booking;
  meetingTypes : gmap string MeetingType;
}.

(** The projection [HostWithTokens] of a user document. *)
Record HostWithTokens := {
  host_id : string;
  host_name : string;
  host_email : option string;
  host_availability : option (list AvailabilitySlot);
  host_connectedAccounts : option (list ConnectedAccount);
}.

(** A row of [BOOKINGS_IN_RANGE_QUERY]. *)
Record BookingRow := {
  row_id : string;
  row_startTime : Z;
  row_endTime : Z;
  row_googleEventId : option string;
  row_guestEmail : option string;
}.

(** A row is passed where a [BookingSlot] is expected (structural typing). *)
Definition asBookingSlot (b : BookingRow) : BookingSlot :=
  {| _id := row_id b; startTime := row_startTime b; endTime := row_endTime b |}.

Definition hostOfUser (id : string) (u : User) : HostWithTokens :=
  {| host_id := id; host_name := user_name u; host_email := user_email u;
     host_availability := availability u;
     host_connectedAccounts := connectedAccounts u |}.

Definition rowOfBooking (id : string) (b : Booking) : BookingRow :=
  {| row_id := id; row_startTime := bk_startTime b;
     row_endTime := bk_endTime b; row_googleEventId := bk_googleEventId b;
     row_guestEmail := Some (bk_guestEmail b) |}.

Definition optStringEqb (a : option string) (b : string) : bool :=
  match a with
  | Some a => String.eqb a b
  | None => false
  end.

(** Modelled from the spec: the query HOST_BY_SLUG_WITH_TOKENS_QUERY of
    sanity/queries/users, "fetch host by slug (with availability + connected
    accounts)": the first user document with that slug, if any. *)
Definition fetchHostBySlug (st : Store) (slug : string)
    : option HostWithTokens :=
  match List.find (fun '(_, u) => optStringEqb (user_slug u) slug)
          (map_to_list (users st)) with
  | Some (id, u) => Some (hostOfUser id u)
  | None => None
  end.

(** Modelled from the spec: the query BOOKINGS_IN_RANGE_QUERY of
    sanity/queries/bookings, "fetch bookings overlapping a time range for a
    host". *)
Definition fetchBookingsInRange (st : Store) (hostId : string)
    (startDate endDate : Z) : list BookingRow :=
  List.map (fun '(id, b) => rowOfBooking id b)
    (List.filter (fun '(_, b) =>
        String.eqb (bk_host b) hostId
        && overlaps (bk_startTime b) (bk_endTime b) startDate endDate)
      (map_to_list (bookings st))).

(** Modelled from the spec: the query MEETING_TYPE_BY_SLUGS_QUERY of
    sanity/queries/meetingTypes, "fetch meeting type by host+type slug". *)
Definition fetchMeetingTypeBySlugs (st : Store)
    (hostSlug meetingTypeSlug : string) : option (string * MeetingType) :=
  List.find (fun '(_, mt) =>
      optStringEqb (mt_slug mt) meetingTypeSlug
      && match users st !! mt_host mt with
         | Some u => optStringEqb (user_slug u) hostSlug
         | None => false
         end)
    (map_to_list (meetingTypes st)).

(** Modelled from the spec: the query USER_ID_BY_CLERK_ID_QUERY of
    sanity/queries/users, "fetch host by external-identity-id". *)
Definition fetchUserIdByClerkId (st : Store) (clerk : string)
    : option string :=
  fst <$> List.find (fun '(_, u) => String.eqb (clerkId u) clerk)
            (map_to_list (users st)).

(** ** External collaborators *)

Record CalendarEvent := {
  ev_summary : string;
  ev_start : Z;
  ev_end : Z;
}.

Record EventRequest := {
  req_summary : string;
  req_description : option string;
  req_start : Z;
  req_end : Z;
  req_attendees : list (option string);
}.

(** [event.data] of a created calendar event. *)
Record EventData := {
  event_id : option string;
  hangoutLink : option string;
}.

(** The calendar integration ([@/lib/google-calendar]) and the quota check
    ([@/lib/features]); each calendar call either returns or throws.
    [insertEvent] stands for [getCalendarClient] followed by
    [calendar.events.insert]. *)
Record External := {
  fetchCalendarEvents :
    list ConnectedAccount -> Z -> Z -> result (list CalendarEvent);
  getEventAttendeeStatus :
    ConnectedAccount -> string -> string -> result string;
  insertEvent : ConnectedAccount -> EventRequest -> result EventData;
  quotaIsExceeded : string -> bool;
}.

(** ** Helpers of the booking actions *)

Definition getGoogleBusyTimes (ext : External)
    (accounts : option (list ConnectedAccount)) (startDate endDate : Z)
    : result (list BusyTime) :=
  match fetchCalendarEvents ext (default [] accounts) startDate endDate with
  | Ok events =>
    Ok (List.map (fun event =>
          {| busy_start := ev_start event; busy_end := ev_end event |}) events)
  | Throw e => Throw e
  end.

(** [host.connectedAccounts?.find((a) => a.isDefault)] *)
Definition findDefaultAccount (accounts : option (list ConnectedAccount))
    : option ConnectedAccount :=
  match accounts with
  | Some l => List.find isDefault l
  | None => None
  end.

(** [defaultAccount?.accessToken && defaultAccount?.refreshToken] *)
Definition usableAccount (defaultAccount : option ConnectedAccount)
    : option ConnectedAccount :=
  match defaultAccount with
  | Some a =>
    if truthy (accessToken a) && truthy (refreshToken a) then Some a else None
  | None => None
  end.

(** The body of the attendee check of one booking: [true] when the booking
    id is added to [declinedBookingIds]. A failed lookup adds nothing. *)
Definition guestDeclined (ext : External) (account : ConnectedAccount)
    (booking : BookingRow) : bool :=
  match row_googleEventId booking, row_guestEmail booking with
  | Some eventId, Some email =>
    match getEventAttendeeStatus ext account eventId email with
    | Ok status => String.eqb status "declined"
    | Throw _ => false
    end
  | _, _ => false
  end.

(** The set built by the [Promise.all] over the bookings to check. *)
Definition collectDeclined (ext : External) (account : ConnectedAccount)
    (toCheck : list BookingRow) : gset string :=
  list_to_set (List.map row_id
    (List.filter (guestDeclined ext account)
      (List.filter (fun b =>
          truthy (row_googleEventId b) && truthy (row_guestEmail b))
        toCheck))).

Definition has (ids : gset string) (id : string) : bool :=
  bool_decide (id ∈ ids).

(** ** [getAvailableSlots] *)

(** The [while] loop of step 6 for one window; every candidate is pushed. *)
Fixpoint windowSlots (fuel : nat) (slotDurationMinutes slotEnd currentStart : Z)
    : option (list TimeSlot) :=
  match fuel with
  | O => None
  | S fuel' =>
    if addMinutes currentStart slotDurationMinutes <=? slotEnd then
      let currentEnd := addMinutes currentStart slotDurationMinutes in
      rest ← windowSlots fuel' slotDurationMinutes slotEnd currentEnd;
      Some ({| slot_start := currentStart; slot_end := currentEnd |} :: rest)
    else Some []
  end.

(** The [for ... of availabilityForDate] loop of step 6. *)
Fixpoint generateAllSlots (fuel : nat) (dayStart dayEnd : Z)
    (slotDurationMinutes : Z) (availabilityForDate : list AvailabilitySlot)
    : option (list TimeSlot) :=
  match availabilityForDate with
  | [] => Some []
  | availSlot :: others =>
    let slotStart := clampStart dayStart availSlot in
    let slotEnd := clampEnd dayEnd availSlot in
    here ← windowSlots fuel slotDurationMinutes slotEnd slotStart;
    later ← generateAllSlots fuel dayStart dayEnd slotDurationMinutes others;
    Some (here ++ later)
  end.

(** The filter callback of step 7. *)
Definition slotIsFree (activeBookings : list BookingRow)
    (busyTimes : list BusyTime) (slot : TimeSlot) : bool :=
  if existsb (fun booking =>
       overlaps (slot_start slot) (slot_end slot)
         (row_startTime booking) (row_endTime booking)) activeBookings
  then false
  else negb (hasBusyConflict busyTimes (slot_start slot) (slot_end slot)).

(** Step 4: the bookings left after removing the declined ones. *)
Definition activeBookingsOf (ext : External) (host : HostWithTokens)
    (existingBookings : list BookingRow) : list BookingRow :=
  let defaultAccount := findDefaultAccount (host_connectedAccounts host) in
  let declinedBookingIds :=
    match usableAccount defaultAccount with
    | Some account => collectDeclined ext account existingBookings
    | None => ∅
    end in
  List.filter (fun b => negb (has declinedBookingIds (row_id b)))
    existingBookings.

Definition getAvailableSlots (fuel : nat) (tz : Z) (ext : External)
    (st : Store) (hostSlug : string) (date slotDurationMinutes : Z)
    : option (result (list TimeSlot)) :=
  match fetchHostBySlug st hostSlug with
  | None => Some (Throw HostNotFound)
  | Some host =>
    let dayStart := startOfDay tz date in
    let dayEnd := endOfDay tz date in
    let availabilityForDate :=
      List.filter (onDay dayStart dayEnd)
        (default [] (host_availability host)) in
    if (length availabilityForDate =? 0)%nat then Some (Ok [])
    else
      let existingBookings :=
        fetchBookingsInRange st (host_id host) dayStart dayEnd in
      let activeBookings := activeBookingsOf ext host existingBookings in
      match getGoogleBusyTimes ext (host_connectedAccounts host)
              dayStart dayEnd with
      | Throw e => Some (Throw e)
      | Ok busyTimes =>
        allSlots ← generateAllSlots fuel dayStart dayEnd slotDurationMinutes
                      availabilityForDate;
        Some (Ok (List.filter (slotIsFree activeBookings busyTimes) allSlots))
      end
  end.

(** ** [getAvailableDates] *)

Definition getAvailableDates (fuel : nat) (tz now : Z) (ext : External)
    (st : Store) (hostSlug : string)
    (startDate endDate slotDurationMinutes : Z)
    : option (result (list string)) :=
  match fetchHostBySlug st hostSlug with
  | None => Some (Ok [])
  | Some host =>
    let existingBookings :=
      fetchBookingsInRange st (host_id host) startDate endDate in
    let busyTimes :=
      match getGoogleBusyTimes ext (host_connectedAccounts host)
              startDate endDate with
      | Ok fetched => fetched
      | Throw _ => []
      end in
    dates ← computeAvailableDates fuel tz now
               (default [] (host_availability host))
               (List.map asBookingSlot existingBookings)
               startDate endDate slotDurationMinutes busyTimes;
    Some (Ok dates)
  end.

(** ** [checkSlotAvailable] and [createBooking] *)

Definition checkSlotAvailable (ext : External) (st : Store)
    (host : HostWithTokens) (startTime_ endTime_ : Z) : bool :=
  let existingBookings :=
    fetchBookingsInRange st (host_id host) startTime_ endTime_ in
  let defaultAccount := findDefaultAccount (host_connectedAccounts host) in
  let declinedBookingIds :=
    match usableAccount defaultAccount with
    | Some account =>
      let overlappingBookings :=
        List.filter (fun booking =>
          overlaps startTime_ endTime_
            (row_startTime booking) (row_endTime booking))
          existingBookings in
      collectDeclined ext account overlappingBookings
    | None => ∅
    end in
  negb (existsb (fun booking =>
    if has declinedBookingIds (row_id booking) then false
    else overlaps startTime_ endTime_
           (row_startTime booking) (row_endTime booking))
    existingBookings).

Record BookingData := {
  hostSlug : string;
  meetingTypeSlug : option string;
  data_startTime : Z;
  data_endTime : Z;
  guestName : string;
  guestEmail : string;
  notes : option string;
}.

(** Step 3: the id and the name of the meeting type, when it is found. *)
Definition resolveMeetingType (st : Store) (data : BookingData)
    : option string * option string :=
  match meetingTypeSlug data with
  | Some slug =>
    if truthy (Some slug) then
      match fetchMeetingTypeBySlugs st (hostSlug data) slug with
      | Some (id, mt) => (Some id, mt_name mt)
      | None => (None, None)
      end
    else (None, None)
  | None => (None, None)
  end.

Definition eventRequest (host : HostWithTokens) (data : BookingData)
    (meetingTypeName : option string) : EventRequest :=
  let title :=
    if truthy meetingTypeName then default EmptyString meetingTypeName
    else "Meeting"%string in
  {| req_summary :=
       String.append title (String.append ": "
         (String.append (host_name host)
           (String.append " x " (guestName data))));
     req_description := if truthy (notes data) then notes data else None;
     req_start := data_startTime data;
     req_end := data_endTime data;
     req_attendees := [host_email host; Some (guestEmail data)] |}.

(** Steps 5 and 6: the event id and the meeting link, both absent when there
    is no usable default account or when the creation of the event throws. *)
Definition createCalendarEvent (ext : External) (host : HostWithTokens)
    (data : BookingData) (meetingTypeName : option string)
    : option string * option string :=
  let defaultAccount := findDefaultAccount (host_connectedAccounts host) in
  match usableAccount defaultAccount with
  | Some account =>
    match insertEvent ext account (eventRequest host data meetingTypeName) with
    | Ok event => (event_id event, hangoutLink event)
    | Throw _ => (None, None)
    end
  | None => (None, None)
  end.

(** [writeClient.create] of a booking document; [newId] is the [_id] the
    store gives to the new document. *)
Definition createBookingDocument (st : Store) (newId : string) (doc : Booking)
    : Store :=
  {| users := users st;
     bookings := <[newId := doc]> (bookings st);
     meetingTypes := meetingTypes st |}.

Definition createBooking (ext : External) (newId : string) (st : Store)
    (data : BookingData) : result string * Store :=
  match fetchHostBySlug st (hostSlug data) with
  | None => (Throw HostNotFound, st)
  | Some host =>
    if quotaIsExceeded ext (hostSlug data) then (Throw QuotaExceeded, st)
    else
      let '(meetingTypeId, meetingTypeName) := resolveMeetingType st data in
      let isAvailable :=
        checkSlotAvailable ext st host (data_startTime data)
          (data_endTime data) in
      if negb isAvailable then (Throw SlotUnavailable, st)
      else
        let '(googleEventId, meetLink) :=
          createCalendarEvent ext host data meetingTypeName in
        let booking :=
          {| bk_host := host_id host;
             bk_meetingType :=
               if truthy meetingTypeId then meetingTypeId else None;
             bk_guestName := guestName data;
             bk_guestEmail := guestEmail data;
             bk_startTime := data_startTime data;
             bk_endTime := data_endTime data;
             bk_googleEventId := googleEventId;
             bk_meetLink := meetLink;
             bk_status := "confirmed";
             bk_notes := notes data |} in
        (Ok newId, createBookingDocument st newId booking)
  end.

(** ** [getOrCreateUser] and [saveAvailability] *)

(** The profile the identity provider gives for the signed-in user. *)
Record ClerkUser := {
  clerk_id : string;
  firstName : option string;
  lastName : option string;
  username : option string;
  emailAddresses : list string;
}.

(** The request's session: [auth()] gives the id of the signed-in user and
    [currentUser()] their profile, both absent when nobody is signed in. *)
Definition auth (session : option ClerkUser) : option string :=
  clerk_id <$> session.
Definition currentUser (session : option ClerkUser) : option ClerkUser :=
  session.

Definition displayName (clerkUser : ClerkUser) : string :=
  if truthy (firstName clerkUser) && truthy (lastName clerkUser)
  then String.append (default EmptyString (firstName clerkUser))
         (String.append " " (default EmptyString (lastName clerkUser)))
  else if truthy (username clerkUser)
       then default EmptyString (username clerkUser)
       else "User"%string.

Definition createUserDocument (st : Store) (newId : string) (doc : User)
    : Store :=
  {| users := <[newId := doc]> (users st);
     bookings := bookings st;
     meetingTypes := meetingTypes st |}.

Definition getOrCreateUser (session : option ClerkUser) (newId : string)
    (st : Store) (clerk : string) : result string * Store :=
  match fetchUserIdByClerkId st clerk with
  | Some existingUser => (Ok existingUser, st)
  | None =>
    match currentUser session with
    | None => (Throw UserNotFoundInClerk, st)
    | Some clerkUser =>
      let newUser :=
        {| clerkId := clerk;
           user_name := displayName clerkUser;
           user_email := head (emailAddresses clerkUser);
           user_slug := None;
           availability := Some [];
           connectedAccounts := None |} in
      (Ok newId, createUserDocument st newId newUser)
    end
  end.

Record TimeBlock := {
  block_id : string;
  block_start : Z;
  block_end : Z;
}.

Record SavedBlock := {
  saved_id : string;
  saved_start : Z;
  saved_end : Z;
}.

(** [writeClient.patch(id).set({ availability }).commit()]; the store
    refuses to patch a document that does not exist. *)
Definition patchAvailability (st : Store) (id : string)
    (blocks : list AvailabilitySlot) : result Store :=
  match users st !! id with
  | Some u =>
    Ok {| users :=
            <[id := {| clerkId := clerkId u; user_name := user_name u;
                       user_email := user_email u; user_slug := user_slug u;
                       availability := Some blocks;
                       connectedAccounts := connectedAccounts u |}]>
              (users st);
          bookings := bookings st;
          meetingTypes := meetingTypes st |}
  | None => Throw DocumentNotFound
  end.

(** [randomUUID i] is the value of the [i]-th call of [crypto.randomUUID()]
    made by the request. *)
Definition saveAvailability (session : option ClerkUser) (newId : string)
    (randomUUID : nat -> string) (st : Store) (blocks : list TimeBlock)
    : result (list SavedBlock) * Store :=
  match auth session with
  | None => (Throw Unauthorized, st)
  | Some userId =>
    match getOrCreateUser session newId st userId with
    | (Throw e, st1) => (Throw e, st1)
    | (Ok user, st1) =>
      let sanityBlocks :=
        imap (fun i block =>
          {| _key := randomUUID i;
             startDateTime := block_start block;
             endDateTime := block_end block |}) blocks in
      match patchAvailability st1 user sanityBlocks with
      | Throw e => (Throw e, st1)
      | Ok st2 =>
        (Ok (List.map (fun block =>
               {| saved_id := _key block;
                  saved_start := startDateTime block;
                  saved_end := endDateTime block |}) sanityBlocks), st2)
      end
    end
  end.

(** * Vocabulary of the properties *)

(** What the specification asks of a slot cut from the window
    [[windowStart, windowEnd]] with duration [d] minutes. *)
Definition aligned (d windowStart windowEnd : Z) (s : TimeSlot) : Prop :=
  slot_end s - slot_start s = d * msPerMinute
  /\ (exists k, 0 <= k /\ slot_start s = windowStart + k * (d * msPerMinute))
  /\ slot_end s <= windowEnd.


(** The conflict test shared by [computeAvailableSlots] and the probe. *)
Definition freeOfConflicts (bookings : list BookingSlot)
    (busyTimes : list BusyTime) (s : TimeSlot) : bool :=
  negb (hasBookingConflict bookings (slot_start s) (slot_end s))
  && negb (hasBusyConflict busyTimes (slot_start s) (slot_end s)).

(** The test [computeAvailableSlots] applies to a candidate. *)
Definition keptByCompute (now : Z) (bookings : list BookingSlot)
    (busyTimes : list BusyTime) (s : TimeSlot) : bool :=
  negb (slot_start s <? now) && freeOfConflicts bookings busyTimes s.



Definition startsBefore (a b : TimeSlot) : Prop :=
  slot_start a < slot_start b.



(** The guest of the booking declined the calendar event, as far as the
    availability check can tell: the host has a default account with both
    tokens, the booking has an event id and a guest email, and the lookup of
    the attendee status answers "declined". *)
Definition attendeeDeclined (ext : External) (host : HostWithTokens)
    (row : BookingRow) : bool :=
  match usableAccount (findDefaultAccount (host_connectedAccounts host)) with
  | Some account =>
    truthy (row_googleEventId row) && truthy (row_guestEmail row)
    && guestDeclined ext account row
  | None => false
  end.

(** The same services with a calendar that reports no event at all. *)
Definition withoutBusyTimes (ext : External) : External :=
  {| fetchCalendarEvents := fun _ _ _ => Ok [];
     getEventAttendeeStatus := getEventAttendeeStatus ext;
     insertEvent := insertEvent ext;
     quotaIsExceeded := quotaIsExceeded ext |}.

(** The blocks as [saveAvailability] writes them to the store. *)
Definition sanityBlocksOf (randomUUID : nat -> string)
    (blocks : list TimeBlock) : list AvailabilitySlot :=
  imap (fun i block =>
    {| _key := randomUUID i;
       startDateTime := block_start block;
       endDateTime := block_end block |}) blocks.

(** ** Fixtures for the examples: one day of one host *)

Module Fixtures.

(** 2026-10-30T00:00:00Z, and the instant [hh:mm] of that day (UTC). *)
Definition midnight : Z := 1793318400000.
Definition at_ (hh mm : Z) : Z := midnight + hh * 3600000 + mm * msPerMinute.

Definition window (key : string) (from to : Z) : AvailabilitySlot :=
  {| _key := key; startDateTime := from; endDateTime := to |}.

Definition slot (from to : Z) : TimeSlot :=
  {| slot_start := from; slot_end := to |}.

Definition account : ConnectedAccount :=
  {| isDefault := true; accessToken := Some "access"%string;
     refreshToken := Some "refresh"%string |}.

Definition hostWith (windows : list AvailabilitySlot) : User :=
  {| clerkId := "clerk_ada"; user_name := "Ada";
     user_email := Some "ada@example.org"%string;
     user_slug := Some "ada"%string;
     availability := Some windows;
     connectedAccounts := Some [account] |}.

Definition storeWith (windows : list AvailabilitySlot)
    (booked : gmap string Booking) : Store :=
  {| users := {[ "user-ada"%string := hostWith windows ]};
     bookings := booked;
     meetingTypes := ∅ |}.

Definition emptyStore : Store :=
  {| users := ∅; bookings := ∅; meetingTypes := ∅ |}.

Definition booking (from to : Z) (eventId : option string) : Booking :=
  {| bk_host := "user-ada"; bk_meetingType := None;
     bk_guestName := "Grace"; bk_guestEmail := "grace@example.org";
     bk_startTime := from; bk_endTime := to;
     bk_googleEventId := eventId; bk_meetLink := None;
     bk_status := "confirmed"; bk_notes := None |}.

(** A calendar that answers: nothing busy, every guest accepted. *)
Definition calendarUp : External :=
  {| fetchCalendarEvents := fun _ _ _ => Ok [];
     getEventAttendeeStatus := fun _ _ _ => Ok "accepted"%string;
     insertEvent := fun _ _ =>
       Ok {| event_id := Some "evt-1"%string;
             hangoutLink := Some "https://meet.example/evt-1"%string |};
     quotaIsExceeded := fun _ => false |}.

(** A calendar whose every call throws. *)
Definition calendarDown : External :=
  {| fetchCalendarEvents := fun _ _ _ => Throw (Err "calendar unreachable");
     getEventAttendeeStatus := fun _ _ _ =>
       Throw (Err "calendar unreachable");
     insertEvent := fun _ _ => Throw (Err "calendar unreachable");
     quotaIsExceeded := fun _ => false |}.

Definition nineToFive : list AvailabilitySlot :=
  [window "w1" (at_ 9 0) (at_ 17 0)].
Definition nineToTen : list AvailabilitySlot :=
  [window "w1" (at_ 9 0) (at_ 10 0)].

(** A calendar in which every guest declined. *)
Definition calendarDeclined : External :=
  {| fetchCalendarEvents := fun _ _ _ => Ok [];
     getEventAttendeeStatus := fun _ _ _ => Ok "declined"%string;
     insertEvent := fun _ _ =>
       Ok {| event_id := Some "evt-2"%string; hangoutLink := None |};
     quotaIsExceeded := fun _ => false |}.

Definition ada : ClerkUser :=
  {| clerk_id := "clerk_ada"; firstName := Some "Ada"%string;
     lastName := Some "Lovelace"%string; username := None;
     emailAddresses := ["ada@example.org"%string] |}.

Definition request (from to : Z) : BookingData :=
  {| hostSlug := "ada"; meetingTypeSlug := None;
     data_startTime := from; data_endTime := to;
     guestName := "Grace"; guestEmail := "grace@example.org";
     notes := None |}.

End Fixtures.

(** * Vocabulary of the further properties *)

(** The [i]-th slot of [d] minutes cut from a window that starts at
    [windowStart]. *)
Definition nthSlot (d windowStart : Z) (i : nat) : TimeSlot :=
  {| slot_start := windowStart + Z.of_nat i * (d * msPerMinute);
     slot_end := windowStart + (Z.of_nat i + 1) * (d * msPerMinute) |}.

(** How many slots of [d] minutes fit between two instants. *)
Definition slotCount (d windowStart windowEnd : Z) : nat :=
  Z.to_nat ((windowEnd - windowStart) / (d * msPerMinute)).

(** The slot has not started at [now]. *)
Definition notPast (now : Z) (s : TimeSlot) : bool :=
  negb (slot_start s <? now).

(** The slot lies inside the availability window. *)
Definition insideWindow (w : AvailabilitySlot) (s : TimeSlot) : Prop :=
  startDateTime w <= slot_start s /\ slot_end s <= endDateTime w.

(** The probe finds a free slot on the local day that starts at [day]. *)
Definition dayHasFreeSlot (tz : Z) (availability_ : list AvailabilitySlot)
    (bookings : list BookingSlot) (d : Z) (busyTimes : list BusyTime)
    (day : Z) : Prop :=
  exists fuel,
    checkDayHasAvailableSlot fuel
      (List.filter (onDay (startOfDay tz day) (endOfDay tz day)) availability_)
      bookings (startOfDay tz day) (endOfDay tz day) d busyTimes = Some true.

(** The calendar never answers that a guest declined. *)
Definition nobodyDeclined (ext : External) : Prop :=
  forall account eventId email,
    getEventAttendeeStatus ext account eventId email <> Ok "declined"%string.



(** * More of the code *)

(** ** Slugs and URLs ([generateSlug], [getBaseUrl])

    Text is a sequence of characters of one byte; the functions below are
    those of JavaScript on ASCII text. *)

Definition isLowerChar (c : Ascii.ascii) : bool :=
  (97 <=? Ascii.nat_of_ascii c)%nat && (Ascii.nat_of_ascii c <=? 122)%nat.

Definition isUpperChar (c : Ascii.ascii) : bool :=
  (65 <=? Ascii.nat_of_ascii c)%nat && (Ascii.nat_of_ascii c <=? 90)%nat.

Definition isDigitChar (c : Ascii.ascii) : bool :=
  (48 <=? Ascii.nat_of_ascii c)%nat && (Ascii.nat_of_ascii c <=? 57)%nat.

Definition toLowerChar (c : Ascii.ascii) : Ascii.ascii :=
  if isUpperChar c then Ascii.ascii_of_nat (Ascii.nat_of_ascii c + 32) else c.

Definition hyphen : Ascii.ascii := Ascii.ascii_of_nat 45.

(** The class [[a-z0-9]] of the first regular expression. *)
Definition isSlugChar (c : Ascii.ascii) : bool := isLowerChar c || isDigitChar c.

(** [.replace(/[^a-z0-9]+/g, "-")]: every maximal run of other characters
    becomes one hyphen; [inRun] tells that the run has begun. *)
Fixpoint hyphenate (inRun : bool) (text : list Ascii.ascii)
    : list Ascii.ascii :=
  match text with
  | [] => []
  | c :: rest =>
    if isSlugChar c then c :: hyphenate false rest
    else if inRun then hyphenate true rest
         else hyphen :: hyphenate true rest
  end.

(** [.replace(/^-|-$/g, "")]: a hyphen at the start and a hyphen at the
    end are removed. *)
Definition stripLeadingHyphen (text : list Ascii.ascii) : list Ascii.ascii :=
  match text with
  | c :: rest => if Ascii.eqb c hyphen then rest else text
  | [] => []
  end.

Fixpoint stripTrailingHyphen (text : list Ascii.ascii) : list Ascii.ascii :=
  match text with
  | [] => []
  | [c] => if Ascii.eqb c hyphen then [] else [c]
  | c :: rest => c :: stripTrailingHyphen rest
  end.

Definition slugChars (text : list Ascii.ascii) : list Ascii.ascii :=
  firstn 50
    (stripTrailingHyphen
       (stripLeadingHyphen
          (hyphenate false (List.map toLowerChar text)))).

Definition generateSlug (text : string) : string :=
  String.string_of_list_ascii (slugChars (String.list_ascii_of_string text)).

(** [process.env], as far as [getBaseUrl] reads it. *)
Record Env := {
  VERCEL_URL : option string;
  NEXT_PUBLIC_APP_URL : option string;
}.

Definition getBaseUrl (env : Env) : string :=
  if truthy (VERCEL_URL env)
  then String.append "https://" (default EmptyString (VERCEL_URL env))
  else if truthy (NEXT_PUBLIC_APP_URL env)
       then default EmptyString (NEXT_PUBLIC_APP_URL env)
       else "http://localhost:3000"%string.

(** No two hyphens in a row. *)
Fixpoint noDoubleHyphen (text : list Ascii.ascii) : Prop :=
  match text with
  | a :: (b :: _) as rest =>
    ~ (a = hyphen /\ b = hyphen) /\ noDoubleHyphen rest
  | _ => True
  end.

(** The characters a slug is made of. *)
Definition slugAlphabet (text : list Ascii.ascii) : Prop :=
  Forall (fun c => isSlugChar c = true \/ c = hyphen) text.

(** ** Proof automation *)

(** The loops are analysed by induction on the fuel; this opens the body of
    a loop at its condition. *)
Ltac loop_body cur d slotEnd :=
  simpl;
  destruct (Z.leb_spec (addMinutes cur d) slotEnd);
  unfold addMinutes, msPerMinute in *.

(** * Properties *)

(** ** Day bounds and clamping *)

Lemma endOfDay_span tz date :
  endOfDay tz date - startOfDay tz date = msPerDay - 1.
Proof. unfold endOfDay. lia. Qed.

Lemma day_fits fuel tz date :
  (1440 <= fuel)%nat ->
  endOfDay tz date - startOfDay tz date < Z.of_nat fuel * msPerMinute.
Proof. rewrite endOfDay_span. unfold msPerDay, msPerMinute. lia. Qed.

Lemma clampStart_ge dayStart w : dayStart <= clampStart dayStart w.
Proof. unfold clampStart. case_match; lia. Qed.

Lemma clampStart_ge_window dayStart w : startDateTime w <= clampStart dayStart w.
Proof. unfold clampStart. case_match; lia. Qed.

Lemma clampEnd_le dayEnd w : clampEnd dayEnd w <= dayEnd.
Proof. unfold clampEnd. case_match; lia. Qed.

Lemma clampEnd_le_window dayEnd w : clampEnd dayEnd w <= endDateTime w.
Proof. unfold clampEnd. case_match; lia. Qed.

Lemma clamped_within dayStart dayEnd w (bound : Z) :
  dayEnd - dayStart < bound ->
  clampEnd dayEnd w - clampStart dayStart w < bound.
Proof.
  pose proof (clampStart_ge dayStart w). pose proof (clampEnd_le dayEnd w). lia.
Qed.

(** ** Lists *)

Lemma existsb_false {A} (f : A -> bool) (l : list A) :
  existsb f l = false <-> Forall (fun x => f x = false) l.
Proof.
  induction l as [|x l IH]; simpl.
  - split; [constructor|done].
  - rewrite orb_false_iff, IH, Forall_cons. tauto.
Qed.

Lemma Forall_kept {A} (P : A -> Prop) (f : A -> bool) (l : list A) :
  Forall P l -> Forall P (List.filter f l).
Proof.
  rewrite !List.Forall_forall. intros Hl x [Hx _]%List.filter_In. by apply Hl.
Qed.




Lemma map_imap_const {A B C} (f : nat -> A -> B) (g : B -> C) (h : A -> C)
    (l : list A) :
  (forall i x, g (f i x) = h x) ->
  List.map g (imap f l) = List.map h l.
Proof.
  revert f. induction l as [|x l IH]; intros f Hf; simpl; [done|].
  rewrite Hf. f_equal. apply IH. intros i y. apply Hf.
Qed.

(** ** The candidate generator of one window *)

Lemma aligned_shift d windowStart windowEnd cur s :
  (exists k, 0 <= k /\ cur = windowStart + k * (d * msPerMinute)) ->
  aligned d (addMinutes cur d) windowEnd s ->
  aligned d windowStart windowEnd s.
Proof.
  intros (k & Hk & ->) (Hlen & (j & Hj & Hs) & Hend).
  split; [done|]. split; [|done].
  exists (k + 1 + j). split; [lia|]. rewrite Hs. unfold addMinutes. lia.
Qed.

Lemma windowSlots_aligned fuel d slotEnd cur slots :
  windowSlots fuel d slotEnd cur = Some slots ->
  Forall (aligned d cur slotEnd) slots.
Proof.
  revert cur slots. induction fuel as [|fuel IH]; intros cur slots; [done|].
  simpl. destruct (Z.leb_spec (addMinutes cur d) slotEnd) as [Hle|Hgt].
  - intros (rest & Hrest & [= <-])%bind_Some. constructor.
    + repeat split; simpl; [unfold addMinutes; lia| |lia]. exists 0. lia.
    + apply IH in Hrest. eapply Forall_impl; [exact Hrest|]. intros s Hs.
      eapply aligned_shift; [|exact Hs]. exists 0. lia.
  - intros [= <-]. constructor.
Qed.

(** With a positive duration, one unit of fuel per minute of the window
    (and one more) is enough. *)
Lemma windowSlots_total fuel d slotEnd cur :
  0 < d -> (0 < fuel)%nat ->
  slotEnd - cur < Z.of_nat fuel * msPerMinute ->
  is_Some (windowSlots fuel d slotEnd cur).
Proof.
  intros Hd. revert cur. induction fuel as [|fuel IH]; intros cur Hpos Hfuel.
  - lia.
  - loop_body cur d slotEnd; [|eauto].
    destruct (IH (cur + d * 60000)) as [rest ->]; [lia|lia|]. simpl. eauto.
Qed.

(** More fuel never changes a result. *)
Lemma windowSlots_mono fuel fuel' d slotEnd cur slots :
  (fuel <= fuel')%nat ->
  windowSlots fuel d slotEnd cur = Some slots ->
  windowSlots fuel' d slotEnd cur = Some slots.
Proof.
  revert fuel' cur slots.
  induction fuel as [|fuel IH]; intros fuel' cur slots Hle; [done|].
  destruct fuel' as [|fuel']; [lia|]. simpl.
  destruct (addMinutes cur d <=? slotEnd); [|done].
  intros (rest & Hrest & Hpush)%bind_Some.
  rewrite (IH fuel' _ rest); [done|lia|done].
Qed.

(** With a duration that is not positive the loop over a window that has
    room for one slot never ends. *)
Lemma windowSlots_stuck fuel d slotEnd cur :
  d <= 0 -> addMinutes cur d <= slotEnd ->
  windowSlots fuel d slotEnd cur = None.
Proof.
  intros Hd. revert cur. induction fuel as [|fuel IH]; intros cur Hroom; [done|].
  loop_body cur d slotEnd; [|lia].
  rewrite IH; [done|]. unfold addMinutes, msPerMinute. lia.
Qed.

(** The candidates of one window start one after the other, inside it. *)
Lemma windowSlots_sorted fuel d slotEnd cur slots :
  windowSlots fuel d slotEnd cur = Some slots ->
  StronglySorted startsBefore slots
  /\ Forall (fun s => cur <= slot_start s < slotEnd) slots.
Proof.
  destruct (Z.lt_ge_cases 0 d) as [Hd|Hd].
  - revert cur slots. induction fuel as [|fuel IH]; intros cur slots; [done|].
    loop_body cur d slotEnd; [|intros [= <-]; split; constructor].
    intros (rest & Hrest & [= <-])%bind_Some.
    apply IH in Hrest as [Hsorted Hin]. split.
    + constructor; [done|]. eapply Forall_impl; [exact Hin|].
      intros s Hs. unfold startsBefore. simpl in *. lia.
    + constructor; [simpl; lia|]. eapply Forall_impl; [exact Hin|].
      intros s Hs. simpl in Hs. lia.
  - destruct fuel as [|fuel]; [done|]. simpl.
    destruct (Z.leb_spec (addMinutes cur d) slotEnd) as [Hle|Hgt].
    + rewrite windowSlots_stuck; [done|done|].
      unfold addMinutes, msPerMinute in *. lia.
    + intros [= <-]. split; constructor.
Qed.

(** ** The candidates of a day *)


Lemma generateAllSlots_mono fuel fuel' dayStart dayEnd d windows slots :
  (fuel <= fuel')%nat ->
  generateAllSlots fuel dayStart dayEnd d windows = Some slots ->
  generateAllSlots fuel' dayStart dayEnd d windows = Some slots.
Proof.
  intros Hle. revert slots. induction windows as [|w windows IH]; simpl; [done|].
  intros slots (here & Hhere & (later & Hlater & Hcat)%bind_Some)%bind_Some.
  rewrite (windowSlots_mono _ _ _ _ _ _ Hle Hhere). simpl.
  by rewrite (IH _ Hlater).
Qed.


(** ** [computeAvailableSlots] filters the candidates *)

Lemma keptByCompute_slot now bookings busyTimes currentStart currentEnd :
  keptByCompute now bookings busyTimes
    {| slot_start := currentStart; slot_end := currentEnd |}
  = negb (currentStart <? now)
    && (negb (hasBookingConflict bookings currentStart currentEnd)
        && negb (hasBusyConflict busyTimes currentStart currentEnd)).
Proof. reflexivity. Qed.

(** The loop of [computeAvailableSlots] visits the candidates the loop of
    [getAvailableSlots] pushes and keeps those that pass its test. *)
Lemma computeWindowSlots_filter fuel now bookings busyTimes d slotEnd cur :
  computeWindowSlots fuel now bookings busyTimes d slotEnd cur
  = List.filter (keptByCompute now bookings busyTimes)
      <$> windowSlots fuel d slotEnd cur.
Proof.
  revert cur. induction fuel as [|fuel IH]; intros cur; [done|]. simpl.
  destruct (addMinutes cur d <=? slotEnd); [|done].
  rewrite IH. destruct (windowSlots fuel d slotEnd _) as [rest|]; simpl.
  - rewrite keptByCompute_slot.
    destruct (cur <? now); [done|]. simpl. by destruct (negb _ && negb _).
  - by destruct (cur <? now).
Qed.

Lemma computeSlotsOfWindows_filter fuel now dayStart dayEnd bookings busyTimes
    d windows :
  computeSlotsOfWindows fuel now dayStart dayEnd bookings busyTimes d windows
  = List.filter (keptByCompute now bookings busyTimes)
      <$> generateAllSlots fuel dayStart dayEnd d windows.
Proof.
  induction windows as [|w windows IH]; simpl; [done|].
  rewrite computeWindowSlots_filter, IH.
  destruct (windowSlots _ _ _ _) as [here|]; simpl; [|done].
  destruct (generateAllSlots _ _ _ _ _) as [later|]; simpl; [|done].
  by rewrite List.filter_app.
Qed.

Lemma computeAvailableSlots_filter fuel tz now availability_ bookings date d
    busyTimes :
  computeAvailableSlots fuel tz now availability_ bookings date d busyTimes
  = List.filter (keptByCompute now bookings busyTimes)
      <$> generateAllSlots fuel (startOfDay tz date) (endOfDay tz date) d
            (List.filter (onDay (startOfDay tz date) (endOfDay tz date))
               availability_).
Proof. apply computeSlotsOfWindows_filter. Qed.



Lemma computeAvailableSlots_mono fuel fuel' tz now availability_ bookings date d
    busyTimes slots :
  (fuel <= fuel')%nat ->
  computeAvailableSlots fuel tz now availability_ bookings date d busyTimes
    = Some slots ->
  computeAvailableSlots fuel' tz now availability_ bookings date d busyTimes
    = Some slots.
Proof.
  intros Hle. rewrite !computeAvailableSlots_filter.
  intros (candidates & Hall & ->)%fmap_Some.
  by rewrite (generateAllSlots_mono _ _ _ _ _ _ _ Hle Hall).
Qed.


(** ** [getAvailableSlots] *)



Lemma getAvailableSlots_mono fuel fuel' tz ext st slug date d r :
  (fuel <= fuel')%nat ->
  getAvailableSlots fuel tz ext st slug date d = Some r ->
  getAvailableSlots fuel' tz ext st slug date d = Some r.
Proof.
  intros Hle. unfold getAvailableSlots.
  destruct (fetchHostBySlug st slug) as [host|]; [|done].
  destruct (length _ =? 0)%nat; [done|].
  destruct (getGoogleBusyTimes _ _ _ _); [|done].
  intros (allSlots & Hall & Hret)%bind_Some.
  by rewrite (generateAllSlots_mono _ _ _ _ _ _ _ Hle Hall).
Qed.


(** ** The probe and the loop over the days *)

Lemma probeWindow_total fuel bookings busyTimes d slotEnd cur :
  0 < d -> (0 < fuel)%nat ->
  slotEnd - cur < Z.of_nat fuel * msPerMinute ->
  is_Some (probeWindow fuel bookings busyTimes d slotEnd cur).
Proof.
  intros Hd. revert cur. induction fuel as [|fuel IH]; intros cur Hpos Hfuel.
  - lia.
  - loop_body cur d slotEnd; [|eauto].
    destruct (negb _ && negb _); [eauto|]. apply IH; lia.
Qed.

Lemma probeWindow_mono fuel fuel' bookings busyTimes d slotEnd cur found :
  (fuel <= fuel')%nat ->
  probeWindow fuel bookings busyTimes d slotEnd cur = Some found ->
  probeWindow fuel' bookings busyTimes d slotEnd cur = Some found.
Proof.
  revert fuel' cur.
  induction fuel as [|fuel IH]; intros fuel' cur Hle; [done|].
  destruct fuel' as [|fuel']; [lia|]. simpl.
  destruct (addMinutes cur d <=? slotEnd); [|done].
  destruct (negb _ && negb _); [done|]. apply IH; lia.
Qed.

(** The probe of one window answers whether some candidate of the window is
    free of conflicts; the current instant plays no part. *)
Lemma probeWindow_existsb fuel bookings busyTimes d slotEnd cur found
    candidates :
  probeWindow fuel bookings busyTimes d slotEnd cur = Some found ->
  windowSlots fuel d slotEnd cur = Some candidates ->
  found = existsb (freeOfConflicts bookings busyTimes) candidates.
Proof.
  revert cur found candidates.
  induction fuel as [|fuel IH]; intros cur found candidates; [done|]. simpl.
  destruct (addMinutes cur d <=? slotEnd); [|by intros [= <-] [= <-]].
  intros Hprobe (rest & Hrest & [= <-])%bind_Some. simpl.
  unfold freeOfConflicts at 1. simpl.
  destruct (negb _ && negb _); [by injection Hprobe as <-|].
  by eapply IH.
Qed.

Lemma checkDayHasAvailableSlot_total fuel windows bookings dayStart dayEnd d
    busyTimes :
  0 < d -> (0 < fuel)%nat ->
  dayEnd - dayStart < Z.of_nat fuel * msPerMinute ->
  is_Some (checkDayHasAvailableSlot fuel windows bookings dayStart dayEnd d
             busyTimes).
Proof.
  intros Hd Hpos Hfuel. induction windows as [|w windows IH]; simpl.
  - eauto.
  - destruct (probeWindow_total fuel bookings busyTimes d
                (clampEnd dayEnd w) (clampStart dayStart w)) as [found ->];
      [done|done|by apply clamped_within|].
    simpl. destruct found; eauto.
Qed.

Lemma checkDayHasAvailableSlot_mono fuel fuel' windows bookings dayStart dayEnd
    d busyTimes found :
  (fuel <= fuel')%nat ->
  checkDayHasAvailableSlot fuel windows bookings dayStart dayEnd d busyTimes
    = Some found ->
  checkDayHasAvailableSlot fuel' windows bookings dayStart dayEnd d busyTimes
    = Some found.
Proof.
  intros Hle. induction windows as [|w windows IH]; simpl; [done|].
  intros (here & Hhere & Hrest)%bind_Some.
  rewrite (probeWindow_mono _ _ _ _ _ _ _ _ Hle Hhere). simpl.
  destruct here; [done|]. by apply IH.
Qed.

Lemma checkDayHasAvailableSlot_existsb fuel windows bookings dayStart dayEnd d
    busyTimes found candidates :
  checkDayHasAvailableSlot fuel windows bookings dayStart dayEnd d busyTimes
    = Some found ->
  generateAllSlots fuel dayStart dayEnd d windows = Some candidates ->
  found = existsb (freeOfConflicts bookings busyTimes) candidates.
Proof.
  revert found candidates.
  induction windows as [|w windows IH]; intros found candidates; simpl.
  - by intros [= <-] [= <-].
  - intros (here & Hhere & Hrest)%bind_Some
           (c1 & Hc1 & (c2 & Hc2 & [= <-])%bind_Some)%bind_Some.
    rewrite existsb_app.
    rewrite <- (probeWindow_existsb _ _ _ _ _ _ _ _ Hhere Hc1).
    destruct here; [by injection Hrest as <-|]. by eapply IH.
Qed.

Lemma datesLoop_mono fuel fuel' tz today availability_ bookings endDate d
    busyTimes currentDate dates :
  (fuel <= fuel')%nat ->
  datesLoop fuel tz today availability_ bookings endDate d busyTimes
    currentDate = Some dates ->
  datesLoop fuel' tz today availability_ bookings endDate d busyTimes
    currentDate = Some dates.
Proof.
  revert fuel' currentDate dates.
  induction fuel as [|fuel IH]; intros fuel' currentDate dates Hle; [done|].
  destruct fuel' as [|fuel']; [lia|]. simpl.
  destruct (currentDate <=? endDate); [|done].
  destruct (currentDate <? today); [apply IH; lia|].
  destruct (0 <? length _)%nat; [|apply IH; lia].
  intros (found & Hfound & (rest & Hrest & Hpush)%bind_Some)%bind_Some.
  rewrite (checkDayHasAvailableSlot_mono fuel fuel' _ _ _ _ _ _ found);
    [|lia|done].
  simpl. rewrite (IH fuel' _ rest); [done|lia|done].
Qed.

(** One unit of fuel per day of the range on top of what a single day
    needs is enough for the loop over the days. *)
Lemma datesLoop_total fuel tz today availability_ bookings endDate d busyTimes
    currentDate :
  0 < d -> (0 < fuel)%nat ->
  endDate - currentDate < (Z.of_nat fuel - 1440) * msPerDay ->
  is_Some (datesLoop fuel tz today availability_ bookings endDate d busyTimes
             currentDate).
Proof.
  intros Hd. revert currentDate.
  induction fuel as [|fuel IH]; intros currentDate Hpos Hfuel; [lia|]. simpl.
  destruct (Z.leb_spec currentDate endDate) as [Hle|Hgt]; [|eauto].
  assert (Hbig : (1440 <= fuel)%nat) by (unfold msPerDay in *; lia).
  destruct (IH (addDays currentDate 1)) as [rest Hrest]; [lia| |].
  { unfold addDays, msPerDay in *. lia. }
  rewrite Hrest.
  destruct (currentDate <? today); [eauto|].
  destruct (0 <? length _)%nat; [|eauto].
  destruct (checkDayHasAvailableSlot_total fuel
              (List.filter (onDay (startOfDay tz currentDate)
                              (endOfDay tz currentDate)) availability_)
              bookings (startOfDay tz currentDate) (endOfDay tz currentDate)
              d busyTimes) as [found ->]; [done|lia|by apply day_fits|].
  simpl. destruct found; eauto.
Qed.

Lemma computeAvailableDates_total fuel tz now availability_ bookings startDate
    endDate d busyTimes :
  0 < d -> (0 < fuel)%nat ->
  endDate - startOfDay tz startDate < (Z.of_nat fuel - 1440) * msPerDay ->
  is_Some (computeAvailableDates fuel tz now availability_ bookings startDate
             endDate d busyTimes).
Proof. intros. by apply datesLoop_total. Qed.

Lemma computeAvailableDates_mono fuel fuel' tz now availability_ bookings
    startDate endDate d busyTimes dates :
  (fuel <= fuel')%nat ->
  computeAvailableDates fuel tz now availability_ bookings startDate endDate d
    busyTimes = Some dates ->
  computeAvailableDates fuel' tz now availability_ bookings startDate endDate d
    busyTimes = Some dates.
Proof. apply datesLoop_mono. Qed.

(** ** [getAvailableDates] *)

(** With a positive duration [getAvailableDates] returns. *)
Lemma getAvailableDates_total fuel tz now ext st slug startDate endDate d :
  0 < d -> (0 < fuel)%nat ->
  endDate - startOfDay tz startDate < (Z.of_nat fuel - 1440) * msPerDay ->
  is_Some (getAvailableDates fuel tz now ext st slug startDate endDate d).
Proof.
  intros Hd Hpos Hfuel. unfold getAvailableDates.
  destruct (fetchHostBySlug st slug) as [host|]; [|eauto].
  match goal with
  | |- is_Some (?dates ≫= _) =>
    assert (is_Some dates) as [dates' ->]
      by (by apply computeAvailableDates_total)
  end.
  simpl. eauto.
Qed.

(** [getAvailableDates] never throws. *)
Lemma getAvailableDates_never_throws fuel tz now ext st slug startDate endDate
    d r :
  getAvailableDates fuel tz now ext st slug startDate endDate d = Some r ->
  exists dates, r = Ok dates.
Proof.
  unfold getAvailableDates.
  destruct (fetchHostBySlug st slug); [|intros [= <-]; eauto].
  intros (dates & _ & [= <-])%bind_Some. eauto.
Qed.

(** When the fetch of the busy intervals throws, [getAvailableDates] gives
    what it gives with an empty set of busy intervals. *)
Lemma getAvailableDates_degrades fuel tz now ext st slug startDate endDate d
    host e :
  fetchHostBySlug st slug = Some host ->
  fetchCalendarEvents ext (default [] (host_connectedAccounts host))
    startDate endDate = Throw e ->
  getAvailableDates fuel tz now ext st slug startDate endDate d
  = getAvailableDates fuel tz now (withoutBusyTimes ext) st slug startDate
      endDate d.
Proof.
  intros Hhost Hfetch. unfold getAvailableDates, getGoogleBusyTimes.
  rewrite Hhost, Hfetch. reflexivity.
Qed.

(** When the host has a window on the day, [getAvailableSlots] throws what
    the fetch of the busy intervals throws. *)
Lemma getAvailableSlots_rethrows fuel tz ext st slug date d host e :
  fetchHostBySlug st slug = Some host ->
  List.filter (onDay (startOfDay tz date) (endOfDay tz date))
    (default [] (host_availability host)) <> [] ->
  fetchCalendarEvents ext (default [] (host_connectedAccounts host))
    (startOfDay tz date) (endOfDay tz date) = Throw e ->
  getAvailableSlots fuel tz ext st slug date d = Some (Throw e).
Proof.
  intros Hhost Hwindows Hfetch. unfold getAvailableSlots, getGoogleBusyTimes.
  rewrite Hhost, Hfetch.
  destruct (List.filter _ _); [done|reflexivity].
Qed.

(** ** The document store and the re-validation *)

Lemma overlaps_sym aStart aEnd bStart bEnd :
  overlaps aStart aEnd bStart bEnd = overlaps bStart bEnd aStart aEnd.
Proof.
  unfold overlaps. rewrite !Z.gtb_ltb. apply andb_comm.
Qed.

(** The rows of the range query are the stored bookings of the host that
    overlap the range. *)
Lemma fetchBookingsInRange_In st hostId startDate endDate row :
  In row (fetchBookingsInRange st hostId startDate endDate) <->
  exists id b,
    row = rowOfBooking id b /\ bookings st !! id = Some b
    /\ bk_host b = hostId
    /\ overlaps startDate endDate (bk_startTime b) (bk_endTime b) = true.
Proof.
  unfold fetchBookingsInRange. rewrite List.in_map_iff. split.
  - intros ([id b] & <- & [Hin Hkeep]%List.filter_In).
    apply list_elem_of_In, elem_of_map_to_list in Hin.
    apply andb_true_iff in Hkeep as [Hhost Hover].
    apply String.eqb_eq in Hhost. rewrite overlaps_sym in Hover.
    by exists id, b.
  - intros (id & b & -> & Hlook & Hhost & Hover).
    exists (id, b). split; [done|]. apply List.filter_In. split.
    + by apply list_elem_of_In, elem_of_map_to_list.
    + rewrite overlaps_sym in Hover. rewrite Hover, andb_true_r.
      by apply String.eqb_eq.
Qed.

Lemma collectDeclined_elem ext account toCheck id :
  id ∈ collectDeclined ext account toCheck <->
  exists row, In row toCheck /\ row_id row = id
    /\ truthy (row_googleEventId row) && truthy (row_guestEmail row) = true
    /\ guestDeclined ext account row = true.
Proof.
  unfold collectDeclined.
  rewrite elem_of_list_to_set, list_elem_of_In, List.in_map_iff. split.
  - intros (row & Hid & [[Hin Htruthy]%List.filter_In Hdecl]%List.filter_In).
    by exists row.
  - intros (row & Hin & Hid & Htruthy & Hdecl).
    exists row. split; [done|]. apply List.filter_In. split; [|done].
    by apply List.filter_In.
Qed.

(** The re-validation accepts a window exactly when every stored booking
    of the host that overlaps it was declined by its guest. *)
Lemma checkSlotAvailable_true ext st host startTime_ endTime_ :
  checkSlotAvailable ext st host startTime_ endTime_ = true <->
  forall id b,
    bookings st !! id = Some b ->
    bk_host b = host_id host ->
    overlaps startTime_ endTime_ (bk_startTime b) (bk_endTime b) = true ->
    attendeeDeclined ext host (rowOfBooking id b) = true.
Proof.
  unfold checkSlotAvailable, attendeeDeclined.
  rewrite negb_true_iff, existsb_false, List.Forall_forall.
  setoid_rewrite fetchBookingsInRange_In. split.
  - intros Hnone id b Hlook Hhost Hover.
    specialize (Hnone (rowOfBooking id b)). simpl in Hnone.
    rewrite Hover in Hnone.
    destruct (usableAccount _) as [account|].
    + destruct (has _ id) eqn:Hhas;
        [|assert (true = false) by (apply Hnone; by exists id, b); done].
      apply bool_decide_eq_true in Hhas.
      apply collectDeclined_elem in Hhas
        as (row & [Hin _]%List.filter_In & Hid & Htruthy & Hrow).
      apply fetchBookingsInRange_In in Hin as (id' & b' & -> & Hlook' & _).
      simpl in Hid. subst id'. assert (b' = b) as -> by congruence.
      by rewrite Htruthy, Hrow.
    + assert (has ∅ id = false) as Hhas by done.
      rewrite Hhas in Hnone.
      assert (true = false) by (apply Hnone; by exists id, b). done.
  - intros Hall row (id & b & -> & Hlook & Hhost & Hover). simpl.
    specialize (Hall id b Hlook Hhost Hover). rewrite Hover.
    destruct (usableAccount _) as [account|]; [|done].
    apply andb_true_iff in Hall as [Htruthy Hrow].
    replace (has _ id) with true; [done|].
    symmetry. apply bool_decide_eq_true, collectDeclined_elem.
    exists (rowOfBooking id b). split; [|done].
    apply List.filter_In. split; [|exact Hover].
    apply fetchBookingsInRange_In. by exists id, b.
Qed.

(** The re-validation refuses a window that overlaps a stored booking of
    the host whose guest did not decline. *)
Lemma checkSlotAvailable_conflict ext st host startTime_ endTime_ id b :
  bookings st !! id = Some b ->
  bk_host b = host_id host ->
  overlaps startTime_ endTime_ (bk_startTime b) (bk_endTime b) = true ->
  attendeeDeclined ext host (rowOfBooking id b) = false ->
  checkSlotAvailable ext st host startTime_ endTime_ = false.
Proof.
  intros Hlook Hhost Hover Hdecl.
  apply not_true_iff_false. intros Havailable.
  rewrite checkSlotAvailable_true in Havailable.
  specialize (Havailable id b Hlook Hhost Hover). congruence.
Qed.




(** A call of [createBooking] that throws leaves the store as it was. *)
Lemma createBooking_failure_keeps_store ext newId st data e st' :
  createBooking ext newId st data = (Throw e, st') -> st' = st.
Proof.
  unfold createBooking.
  destruct (fetchHostBySlug _ _); [|by intros [= _ <-]].
  destruct (quotaIsExceeded _ _); [by intros [= _ <-]|].
  destruct (resolveMeetingType _ _).
  destruct (negb _); [by intros [= _ <-]|].
  destruct (createCalendarEvent _ _ _ _). discriminate.
Qed.

Lemma fetchUserIdByClerkId_Some st clerk uid :
  fetchUserIdByClerkId st clerk = Some uid ->
  exists u, users st !! uid = Some u /\ clerkId u = clerk.
Proof.
  unfold fetchUserIdByClerkId.
  destruct (List.find _ _) as [[id u]|] eqn:Hfind; [|done].
  intros [= <-]. apply List.find_some in Hfind as [Hin Hclerk].
  apply list_elem_of_In, elem_of_map_to_list in Hin.
  apply String.eqb_eq in Hclerk. by exists u.
Qed.




(** The scenarios of the specification, by evaluation. *)
Section Scenarios.
Import Fixtures.

(** The rendering of days, across a leap day and in a zone east of UTC. *)
Example format_days :
  formatYMD 0 (at_ 3 0) = "2026-10-30"%string
  /\ formatYMD 0 951782400000 = "2000-02-29"%string
  /\ formatYMD 0 (-1) = "1969-12-31"%string
  /\ formatYMD 7200000 (at_ 23 0) = "2026-10-31"%string.
Proof. vm_compute. repeat split; reflexivity. Qed.

(** Scenario A: sixteen half-hour slots from 09:00 to 17:00. *)
Example scenario_A :
  length <$> computeAvailableSlots 1440 0 0 nineToFive [] (at_ 3 0) 30 []
  = Some 16%nat.
Proof. vm_compute. reflexivity. Qed.

(** Scenario B: a booking 10:00-10:30 leaves fifteen slots. *)
Example scenario_B :
  length <$> computeAvailableSlots 1440 0 0 nineToFive
    [{| _id := "b1"; startTime := at_ 10 0; endTime := at_ 10 30 |}]
    (at_ 3 0) 30 []
  = Some 15%nat.
Proof. vm_compute. reflexivity. Qed.

(** Scenario C: no partial trailing slot. *)
Example scenario_C :
  computeAvailableSlots 1440 0 0 nineToTen [] (at_ 3 0) 45 []
  = Some [slot (at_ 9 0) (at_ 9 45)].
Proof. vm_compute. reflexivity. Qed.

(** Scenario D: at 09:15 the 09:00 slot is past. *)
Example scenario_D :
  computeAvailableSlots 1440 0 (at_ 9 15) nineToTen [] (at_ 3 0) 30 []
  = Some [slot (at_ 9 30) (at_ 10 0)].
Proof. vm_compute. reflexivity. Qed.

(** Scenario E: the slot was just booked by another request. *)
Example scenario_E :
  createBooking calendarUp "bk-2"
    (storeWith nineToTen {[ "bk-1"%string :=
       booking (at_ 9 0) (at_ 9 30) None ]})
    (request (at_ 9 0) (at_ 9 30))
  = (Throw SlotUnavailable,
     storeWith nineToTen {[ "bk-1"%string :=
       booking (at_ 9 0) (at_ 9 30) None ]}).
Proof. vm_compute. reflexivity. Qed.

(** Scenario F: the calendar is down, the dates are still computed. *)
Example scenario_F :
  getAvailableDates 1500 0 0 calendarDown (storeWith nineToTen ∅) "ada"
    (at_ 0 0) (at_ 23 0) 30
  = Some (Ok ["2026-10-30"%string]).
Proof. vm_compute. reflexivity. Qed.

(** A booking whose guest declined the event frees its slot again. *)
Example declined_booking_reopens_slot :
  getAvailableSlots 1440 0 calendarDeclined
    (storeWith nineToTen {[ "bk-1"%string :=
       booking (at_ 9 0) (at_ 9 30) (Some "evt-1"%string) ]})
    "ada" (at_ 3 0) 30
  = Some (Ok [slot (at_ 9 0) (at_ 9 30); slot (at_ 9 30) (at_ 10 0)]).
Proof. vm_compute. reflexivity. Qed.

(** Round trip: the saved window replaces the stored one. *)
Example save_then_read :
  let '(returned, st) :=
    saveAvailability (Some ada) "user-new" (fun _ => "key-1"%string)
      (storeWith nineToFive ∅)
      [{| block_id := "tmp"; block_start := at_ 13 0;
          block_end := at_ 14 0 |}] in
  returned = Ok [{| saved_id := "key-1"; saved_start := at_ 13 0;
                    saved_end := at_ 14 0 |}]
  /\ host_availability <$> fetchHostBySlug st "ada"
     = Some (Some [window "key-1" (at_ 13 0) (at_ 14 0)]).
Proof. vm_compute. split; reflexivity. Qed.
End Scenarios.

(** ** Slot alignment *)

(** C7. For an availability window clamped to the day of [date], every
    candidate slot the generator of [getAvailableSlots] cuts from it, and
    every slot [computeAvailableSlots] keeps from it, lasts exactly
    [slotDurationMinutes], starts at the clamped start plus a whole number
    of durations, and ends no later than the clamped end; with a positive
    duration the generator does return, 1440 iterations being enough. *)
Theorem slot_alignment tz date d w :
  let windowStart := clampStart (startOfDay tz date) w in
  let windowEnd := clampEnd (endOfDay tz date) w in
  (0 < d -> forall fuel, (1440 <= fuel)%nat ->
     is_Some (windowSlots fuel d windowEnd windowStart))
  /\ (forall fuel slots,
        windowSlots fuel d windowEnd windowStart = Some slots ->
        Forall (aligned d windowStart windowEnd) slots)
  /\ (forall fuel now bookings busyTimes slots,
        computeWindowSlots fuel now bookings busyTimes d windowEnd windowStart
          = Some slots ->
        Forall (aligned d windowStart windowEnd) slots).
Proof.
  intros windowStart windowEnd. split; [|split].
  - intros Hd fuel Hfuel. apply windowSlots_total; [done|lia|].
    apply clamped_within. by apply day_fits.
  - intros fuel slots. apply windowSlots_aligned.
  - intros fuel now bookings busyTimes slots.
    rewrite computeWindowSlots_filter.
    intros (candidates & Hall & ->)%fmap_Some.
    eapply Forall_kept, windowSlots_aligned, Hall.
Qed.

Lemma slot_alignment_witness :
  let w := Fixtures.window "w1" (Fixtures.at_ 9 0) (Fixtures.at_ 10 0) in
  let day := Fixtures.at_ 3 0 in
  is_Some (windowSlots 1440 45 (clampEnd (endOfDay 0 day) w)
             (clampStart (startOfDay 0 day) w))
  /\ Forall (aligned 45 (Fixtures.at_ 9 0) (Fixtures.at_ 10 0))
       [Fixtures.slot (Fixtures.at_ 9 0) (Fixtures.at_ 9 45)].
Proof.
  intros w day.
  destruct (slot_alignment 0 day 45 w) as (Htotal & Hgen & _). split.
  - apply Htotal; [lia|lia].
  - apply (Hgen 1440%nat). vm_compute. reflexivity.
Defined.

(** ** Conflicts *)



(** ** Past slots *)

(** C1. [computeAvailableSlots] skips the slots that start before the
    instant it reads, [getAvailableSlots] reads no clock and has no such
    test: asked at 09:15 for the day of a 09:00-10:00 window it returns the
    09:00 slot, which [computeAvailableSlots] leaves out. *)
Theorem getAvailableSlots_returns_past_slot :
  let now := Fixtures.at_ 9 15 in
  let windows :=
    [Fixtures.window "w1" (Fixtures.at_ 9 0) (Fixtures.at_ 10 0)] in
  getAvailableSlots 1440 0 Fixtures.calendarUp (Fixtures.storeWith windows ∅)
    "ada" now 30
  = Some (Ok [Fixtures.slot (Fixtures.at_ 9 0) (Fixtures.at_ 9 30);
              Fixtures.slot (Fixtures.at_ 9 30) (Fixtures.at_ 10 0)])
  /\ Fixtures.at_ 9 0 < now
  /\ computeAvailableSlots 1440 0 now windows [] now 30 []
     = Some [Fixtures.slot (Fixtures.at_ 9 30) (Fixtures.at_ 10 0)].
Proof. vm_compute. repeat split; reflexivity. Qed.

(** ** Failures of the calendar and missing hosts *)

(** C2. With a calendar whose fetch of busy intervals throws,
    [getAvailableDates] still returns the dates computed without busy
    intervals, whereas [getAvailableSlots], which calls the same fetch
    outside any [try], throws the calendar's error at its caller. *)
Theorem getAvailableSlots_propagates_calendar_failure :
  let st := Fixtures.storeWith
    [Fixtures.window "w1" (Fixtures.at_ 9 0) (Fixtures.at_ 10 0)] ∅ in
  getAvailableSlots 1440 0 Fixtures.calendarDown st "ada" (Fixtures.at_ 3 0) 30
    = Some (Throw (Err "calendar unreachable"))
  /\ getAvailableSlots 1440 0 (withoutBusyTimes Fixtures.calendarDown) st "ada"
       (Fixtures.at_ 3 0) 30
     = Some (Ok [Fixtures.slot (Fixtures.at_ 9 0) (Fixtures.at_ 9 30);
                 Fixtures.slot (Fixtures.at_ 9 30) (Fixtures.at_ 10 0)])
  /\ getAvailableDates 1500 0 0 Fixtures.calendarDown st "ada"
       (Fixtures.at_ 0 0) (Fixtures.at_ 23 0) 30
     = Some (Ok ["2026-10-30"%string]).
Proof. vm_compute. repeat split; reflexivity. Qed.

(** Not both queries abort when the host is missing: with no host in the
    store [getAvailableDates] returns normally. *)
Lemma getAvailableDates_missing_host_returns :
  fetchHostBySlug Fixtures.emptyStore "ada" = None
  /\ getAvailableDates 1500 0 0 Fixtures.calendarUp Fixtures.emptyStore "ada"
       (Fixtures.at_ 0 0) (Fixtures.at_ 23 0) 30 = Some (Ok [])
  /\ ~ (exists e,
         getAvailableDates 1500 0 0 Fixtures.calendarUp Fixtures.emptyStore
           "ada" (Fixtures.at_ 0 0) (Fixtures.at_ 23 0) 30
         = Some (Throw e)).
Proof.
  split; [reflexivity|]. split; [reflexivity|].
  intros (e & He). vm_compute in He. discriminate He.
Qed.

(** C3. When the lookup of the host by slug finds nothing,
    [getAvailableSlots] throws "Host not found" and [getAvailableDates]
    returns the empty list of dates, whatever the fuel. *)
Theorem missing_host fuel tz now ext st slug date startDate endDate d :
  fetchHostBySlug st slug = None ->
  getAvailableSlots fuel tz ext st slug date d = Some (Throw HostNotFound)
  /\ getAvailableDates fuel tz now ext st slug startDate endDate d
     = Some (Ok []).
Proof.
  intros Hhost. unfold getAvailableSlots, getAvailableDates.
  by rewrite Hhost.
Qed.

Lemma missing_host_witness :
  getAvailableSlots 0 0 Fixtures.calendarUp Fixtures.emptyStore "ada"
    (Fixtures.at_ 3 0) 30 = Some (Throw HostNotFound)
  /\ getAvailableDates 0 0 0 Fixtures.calendarUp Fixtures.emptyStore "ada"
       (Fixtures.at_ 0 0) (Fixtures.at_ 23 0) 30 = Some (Ok []).
Proof.
  apply (missing_host 0 0 0 Fixtures.calendarUp Fixtures.emptyStore "ada"
           (Fixtures.at_ 3 0) (Fixtures.at_ 0 0) (Fixtures.at_ 23 0) 30).
  reflexivity.
Defined.

(** ** The commit protocol *)

(** Not every request for an overlapping window fails with the
    slot-unavailable error: when the quota of the host is used up, the
    quota is checked first and its error is the one thrown. *)
Lemma createBooking_quota_error_first :
  let ext :=
    {| fetchCalendarEvents := fetchCalendarEvents Fixtures.calendarUp;
       getEventAttendeeStatus := getEventAttendeeStatus Fixtures.calendarUp;
       insertEvent := insertEvent Fixtures.calendarUp;
       quotaIsExceeded := fun _ => true |} in
  let taken := Fixtures.booking (Fixtures.at_ 9 0) (Fixtures.at_ 9 30) None in
  let st := Fixtures.storeWith
    [Fixtures.window "w1" (Fixtures.at_ 9 0) (Fixtures.at_ 10 0)]
    {[ "bk-1"%string := taken ]} in
  let data := Fixtures.request (Fixtures.at_ 9 0) (Fixtures.at_ 9 30) in
  bookings st !! "bk-1"%string = Some taken
  /\ overlaps (data_startTime data) (data_endTime data)
       (bk_startTime taken) (bk_endTime taken) = true
  /\ attendeeDeclined ext
       (hostOfUser "user-ada" (Fixtures.hostWith
          [Fixtures.window "w1" (Fixtures.at_ 9 0) (Fixtures.at_ 10 0)]))
       (rowOfBooking "bk-1" taken) = false
  /\ createBooking ext "bk-2" st data = (Throw QuotaExceeded, st)
  /\ fst (createBooking ext "bk-2" st data) <> Throw SlotUnavailable.
Proof.
  intros ext taken st data.
  assert (Hrun : createBooking ext "bk-2" st data = (Throw QuotaExceeded, st))
    by (vm_compute; reflexivity).
  repeat split; try (vm_compute; reflexivity).
  rewrite Hrun. discriminate.
Qed.

(** C4. For a request whose host is found and has quota left, if the
    proposed window overlaps, in the half-open sense, a stored booking of
    the host whose guest did not decline, [createBooking] throws the
    slot-unavailable error and the store is unchanged; and whenever
    [createBooking] throws, nothing was persisted. *)
Theorem overlapping_booking_rejected ext newId st data host id b :
  fetchHostBySlug st (hostSlug data) = Some host ->
  quotaIsExceeded ext (hostSlug data) = false ->
  bookings st !! id = Some b ->
  bk_host b = host_id host ->
  overlaps (data_startTime data) (data_endTime data)
    (bk_startTime b) (bk_endTime b) = true ->
  attendeeDeclined ext host (rowOfBooking id b) = false ->
  createBooking ext newId st data = (Throw SlotUnavailable, st)
  /\ forall ext' newId' data' e st',
       createBooking ext' newId' st data' = (Throw e, st') -> st' = st.
Proof.
  intros Hhost Hquota Hlook Hof Hover Hdecl. split.
  - unfold createBooking. rewrite Hhost, Hquota.
    destruct (resolveMeetingType st data).
    by rewrite (checkSlotAvailable_conflict _ _ _ _ _ id b).
  - intros *. apply createBooking_failure_keeps_store.
Qed.

Lemma overlapping_booking_rejected_witness :
  let taken := Fixtures.booking (Fixtures.at_ 9 0) (Fixtures.at_ 9 30) None in
  let st := Fixtures.storeWith
    [Fixtures.window "w1" (Fixtures.at_ 9 0) (Fixtures.at_ 10 0)]
    {[ "bk-1"%string := taken ]} in
  createBooking Fixtures.calendarUp "bk-2" st
    (Fixtures.request (Fixtures.at_ 9 15) (Fixtures.at_ 9 45))
  = (Throw SlotUnavailable, st).
Proof.
  intros taken st.
  apply (overlapping_booking_rejected Fixtures.calendarUp "bk-2" st
           (Fixtures.request (Fixtures.at_ 9 15) (Fixtures.at_ 9 45))
           (hostOfUser "user-ada" (Fixtures.hostWith
              [Fixtures.window "w1" (Fixtures.at_ 9 0) (Fixtures.at_ 10 0)]))
           "bk-1" taken); vm_compute; reflexivity.
Defined.

(** C8. When the host is found, the quota is not exceeded and the window
    is re-validated as available, a failure of the creation of the calendar
    event does not reach the caller: [createBooking] returns the id of the
    new booking, which is stored with status "confirmed", without event id
    and without meeting link. *)
Theorem calendar_failure_keeps_booking ext newId st data host account e :
  fetchHostBySlug st (hostSlug data) = Some host ->
  quotaIsExceeded ext (hostSlug data) = false ->
  checkSlotAvailable ext st host (data_startTime data) (data_endTime data)
    = true ->
  usableAccount (findDefaultAccount (host_connectedAccounts host))
    = Some account ->
  insertEvent ext account
    (eventRequest host data (snd (resolveMeetingType st data))) = Throw e ->
  exists doc st',
    createBooking ext newId st data = (Ok newId, st')
    /\ bookings st' = <[newId := doc]> (bookings st)
    /\ bookings st' !! newId = Some doc
    /\ bk_status doc = "confirmed"%string
    /\ bk_googleEventId doc = None
    /\ bk_meetLink doc = None
    /\ bk_host doc = host_id host
    /\ bk_startTime doc = data_startTime data
    /\ bk_endTime doc = data_endTime data
    /\ bk_guestName doc = guestName data
    /\ bk_guestEmail doc = guestEmail data.
Proof.
  intros Hhost Hquota Havailable Haccount Hinsert.
  unfold createBooking. rewrite Hhost, Hquota.
  destruct (resolveMeetingType st data) as [meetingTypeId meetingTypeName].
  rewrite Havailable. simpl in *.
  unfold createCalendarEvent. rewrite Haccount, Hinsert.
  eexists _, _. split; [reflexivity|]. simpl.
  split; [reflexivity|]. split; [apply lookup_insert_eq|].
  repeat split.
Qed.

Lemma calendar_failure_keeps_booking_witness :
  let st := Fixtures.storeWith
    [Fixtures.window "w1" (Fixtures.at_ 9 0) (Fixtures.at_ 10 0)] ∅ in
  exists doc st',
    createBooking Fixtures.calendarDown "bk-1" st
      (Fixtures.request (Fixtures.at_ 9 0) (Fixtures.at_ 9 30)) = (Ok "bk-1"%string, st')
    /\ bookings st' !! "bk-1"%string = Some doc
    /\ bk_status doc = "confirmed"%string
    /\ bk_googleEventId doc = None
    /\ bk_meetLink doc = None.
Proof.
  intros st.
  destruct (calendar_failure_keeps_booking Fixtures.calendarDown "bk-1" st
              (Fixtures.request (Fixtures.at_ 9 0) (Fixtures.at_ 9 30))
              (hostOfUser "user-ada" (Fixtures.hostWith
                 [Fixtures.window "w1" (Fixtures.at_ 9 0) (Fixtures.at_ 10 0)]))
              Fixtures.account (Err "calendar unreachable"))
    as (doc & st' & Hrun & _ & Hstored & Hstatus & Hevent & Hlink & _);
    [vm_compute; reflexivity ..|].
  exists doc, st'. repeat split; assumption.
Defined.

(** ** Saving the availability *)

(** C9. For a signed-in user, [saveAvailability] succeeds and sets the
    availability of the user's document (the one found by the identity, or
    the one just created under [newId]) to exactly the given blocks under
    fresh keys, whatever it held before; the returned array has the length
    of the input and the same start and end instants, position by position,
    and so has the stored array. *)
Theorem saveAvailability_replaces clerkUser newId randomUUID st blocks :
  let uid := default newId (fetchUserIdByClerkId st (clerk_id clerkUser)) in
  let instants := List.map (fun b => (block_start b, block_end b)) blocks in
  exists saved st' u,
    saveAvailability (Some clerkUser) newId randomUUID st blocks
      = (Ok saved, st')
    /\ users st' !! uid = Some u
    /\ clerkId u = clerk_id clerkUser
    /\ availability u = Some (sanityBlocksOf randomUUID blocks)
    /\ List.map (fun w => (startDateTime w, endDateTime w))
         (sanityBlocksOf randomUUID blocks) = instants
    /\ length saved = length blocks
    /\ List.map (fun s => (saved_start s, saved_end s)) saved = instants
    /\ List.map saved_id saved
       = List.map _key (sanityBlocksOf randomUUID blocks).
Proof.
  intros uid instants.
  assert (Hstored : List.map (fun w => (startDateTime w, endDateTime w))
                      (sanityBlocksOf randomUUID blocks) = instants)
    by (by apply map_imap_const).
  assert (Hreturned : forall saved,
    saved = List.map (fun block =>
              {| saved_id := _key block; saved_start := startDateTime block;
                 saved_end := endDateTime block |})
              (sanityBlocksOf randomUUID blocks) ->
    length saved = length blocks
    /\ List.map (fun s => (saved_start s, saved_end s)) saved = instants
    /\ List.map saved_id saved
       = List.map _key (sanityBlocksOf randomUUID blocks)).
  { intros saved ->. rewrite !List.map_map. simpl. split; [|split].
    - rewrite List.length_map. apply length_imap.
    - exact Hstored.
    - reflexivity. }
  unfold saveAvailability, getOrCreateUser, uid. simpl.
  destruct (fetchUserIdByClerkId st (clerk_id clerkUser)) as [existing|]
    eqn:Hfound; simpl.
  - destruct (fetchUserIdByClerkId_Some _ _ _ Hfound) as (u0 & Hu0 & Hclerk).
    unfold patchAvailability. rewrite Hu0.
    eexists _, _, _. split; [reflexivity|]. simpl.
    split; [apply lookup_insert_eq|]. simpl.
    split; [done|]. split; [done|]. split; [done|]. by apply Hreturned.
  - unfold patchAvailability, createUserDocument. simpl.
    rewrite lookup_insert_eq.
    eexists _, _, _. split; [reflexivity|]. simpl.
    split; [apply lookup_insert_eq|]. simpl.
    split; [done|]. split; [done|]. split; [done|]. by apply Hreturned.
Qed.

(** ** Order of the returned slots *)



(** Only a positive duration gives candidates. *)
Lemma windowSlots_positive fuel d slotEnd cur s slots :
  windowSlots fuel d slotEnd cur = Some (s :: slots) -> 0 < d.
Proof.
  intros Hrun. destruct (Z.lt_ge_cases 0 d) as [Hd|Hd]; [done|].
  destruct fuel as [|fuel]; [done|]. simpl in Hrun.
  destruct (Z.leb_spec (addMinutes cur d) slotEnd) as [Hle|Hgt]; [|done].
  rewrite windowSlots_stuck in Hrun; [done|done|].
  unfold addMinutes, msPerMinute in *. lia.
Qed.





(** ** The probe of the date range *)

(** C10. The probe of [computeAvailableDates] tests the candidates of a
    day for conflicts only, never against the current instant, and only
    the days before today are skipped: at 11:00 of a day whose only window
    is 09:00-10:00, with no booking and no busy interval, the day is among
    the returned dates although [computeAvailableSlots] returns no slot for
    it. *)
Theorem dates_ignore_time_of_day :
  (forall fuel windows bookings dayStart dayEnd d busyTimes found candidates,
     checkDayHasAvailableSlot fuel windows bookings dayStart dayEnd d
       busyTimes = Some found ->
     generateAllSlots fuel dayStart dayEnd d windows = Some candidates ->
     found = existsb (freeOfConflicts bookings busyTimes) candidates)
  /\ exists tz now availability_ d,
       0 < d
       /\ (forall fuel, (1441 <= fuel)%nat ->
             computeAvailableDates fuel tz now availability_ [] now now d []
             = Some [formatYMD tz now])
       /\ (forall fuel, (1440 <= fuel)%nat ->
             computeAvailableSlots fuel tz now availability_ [] now d []
             = Some []).
Proof.
  split.
  - intros *. apply checkDayHasAvailableSlot_existsb.
  - exists 0, (Fixtures.at_ 11 0),
      [Fixtures.window "w1" (Fixtures.at_ 9 0) (Fixtures.at_ 10 0)], 30.
    split; [done|]. split.
    + intros fuel Hfuel.
      apply (computeAvailableDates_mono 1441 fuel); [done|].
      vm_compute. reflexivity.
    + intros fuel Hfuel.
      apply (computeAvailableSlots_mono 1440 fuel); [done|].
      vm_compute. reflexivity.
Qed.

Lemma dates_ignore_time_of_day_witness :
  computeAvailableDates 1441 0 (Fixtures.at_ 11 0)
    [Fixtures.window "w1" (Fixtures.at_ 9 0) (Fixtures.at_ 10 0)] []
    (Fixtures.at_ 11 0) (Fixtures.at_ 11 0) 30 []
  = Some ["2026-10-30"%string]
  /\ computeAvailableSlots 1440 0 (Fixtures.at_ 11 0)
       [Fixtures.window "w1" (Fixtures.at_ 9 0) (Fixtures.at_ 10 0)] []
       (Fixtures.at_ 11 0) 30 []
     = Some []
  /\ true = existsb (freeOfConflicts [] [])
              [Fixtures.slot (Fixtures.at_ 9 0) (Fixtures.at_ 9 30);
               Fixtures.slot (Fixtures.at_ 9 30) (Fixtures.at_ 10 0)].
Proof.
  split; [vm_compute; reflexivity|]. split; [vm_compute; reflexivity|].
  destruct dates_ignore_time_of_day as (Hprobe & _).
  apply (Hprobe 1440%nat
           [Fixtures.window "w1" (Fixtures.at_ 9 0) (Fixtures.at_ 10 0)] []
           (startOfDay 0 (Fixtures.at_ 11 0)) (endOfDay 0 (Fixtures.at_ 11 0))
           30 []); vm_compute; reflexivity.
Defined.

(** * Further properties *)

(** ** The candidates of a window, exactly *)

Lemma nthSlot_shift d cur i :
  nthSlot d cur (S i) = nthSlot d (addMinutes cur d) i.
Proof.
  unfold nthSlot, addMinutes. f_equal; lia.
Qed.

Lemma slotCount_room d slotEnd cur :
  0 < d -> addMinutes cur d <= slotEnd ->
  slotCount d cur slotEnd = S (slotCount d (addMinutes cur d) slotEnd).
Proof.
  intros Hd Hroom. unfold slotCount, addMinutes, msPerMinute in *.
  replace (slotEnd - cur) with (slotEnd - (cur + d * 60000) + 1 * (d * 60000))
    by lia.
  rewrite Z.div_add by lia.
  assert (0 <= (slotEnd - (cur + d * 60000)) / (d * 60000))
    by (apply Z.div_pos; lia).
  lia.
Qed.

Lemma slotCount_no_room d slotEnd cur :
  0 < d -> slotEnd < addMinutes cur d -> slotCount d cur slotEnd = 0%nat.
Proof.
  intros Hd Hroom. unfold slotCount, addMinutes, msPerMinute in *.
  assert ((slotEnd - cur) / (d * 60000) <= 0); [|lia].
  destruct (Z.lt_ge_cases (slotEnd - cur) 0).
  - assert ((slotEnd - cur) / (d * 60000) < 0) by (apply Z.div_lt_upper_bound; lia).
    lia.
  - rewrite Z.div_small; lia.
Qed.

Lemma windowSlots_exact fuel d slotEnd cur slots :
  0 < d ->
  windowSlots fuel d slotEnd cur = Some slots ->
  slots = List.map (nthSlot d cur) (List.seq 0 (slotCount d cur slotEnd)).
Proof.
  intros Hd. revert cur slots.
  induction fuel as [|fuel IH]; intros cur slots; [done|]. simpl.
  destruct (Z.leb_spec (addMinutes cur d) slotEnd) as [Hle|Hgt].
  - intros (rest & Hrest & [= <-])%bind_Some.
    rewrite slotCount_room by done. simpl.
    rewrite <- List.seq_shift, List.map_map.
    f_equal.
    + unfold nthSlot, addMinutes. f_equal; lia.
    + rewrite (IH _ _ Hrest). apply List.map_ext. intros i.
      symmetry. apply nthSlot_shift.
  - intros [= <-]. by rewrite slotCount_no_room.
Qed.

(** X1. With a positive duration, the candidates cut from a window clamped
    to the day are exactly the slots number 0, 1, ... that fit between the
    clamped start and the clamped end, in that order: as many as the whole
    number of durations in the clamped span, none when the span is shorter
    than one duration or inverted. *)
Theorem candidates_exact fuel tz date d w slots :
  let windowStart := clampStart (startOfDay tz date) w in
  let windowEnd := clampEnd (endOfDay tz date) w in
  0 < d ->
  windowSlots fuel d windowEnd windowStart = Some slots ->
  slots = List.map (nthSlot d windowStart)
            (List.seq 0 (slotCount d windowStart windowEnd))
  /\ length slots = slotCount d windowStart windowEnd.
Proof.
  intros windowStart windowEnd Hd Hrun.
  apply windowSlots_exact in Hrun; [|done].
  split; [done|]. rewrite Hrun at 1.
  by rewrite List.length_map, List.length_seq.
Qed.

Lemma candidates_exact_witness :
  let w := Fixtures.window "w1" (Fixtures.at_ 9 0) (Fixtures.at_ 10 0) in
  [Fixtures.slot (Fixtures.at_ 9 0) (Fixtures.at_ 9 25);
   Fixtures.slot (Fixtures.at_ 9 25) (Fixtures.at_ 9 50)]
  = List.map (nthSlot 25 (Fixtures.at_ 9 0)) (List.seq 0 2)
  /\ length [Fixtures.slot (Fixtures.at_ 9 0) (Fixtures.at_ 9 25);
             Fixtures.slot (Fixtures.at_ 9 25) (Fixtures.at_ 9 50)] = 2%nat.
Proof.
  intros w.
  apply (candidates_exact 1440 0 (Fixtures.at_ 3 0) 25 w); [lia|].
  vm_compute. reflexivity.
Defined.

(** ** Where the slots lie *)

(** Every candidate of the day comes from one of the windows, lies inside
    it and inside the day, and is not empty. *)
Lemma generateAllSlots_inside fuel dayStart dayEnd d windows slots :
  generateAllSlots fuel dayStart dayEnd d windows = Some slots ->
  Forall (fun s =>
    slot_start s < slot_end s
    /\ dayStart <= slot_start s /\ slot_end s <= dayEnd
    /\ exists w, In w windows /\ insideWindow w s) slots.
Proof.
  revert slots. induction windows as [|w windows IH]; intros slots; simpl.
  - by intros [= <-].
  - intros (here & Hhere & (later & Hlater & [= <-])%bind_Some)%bind_Some.
    apply Forall_app. split.
    + pose proof (clampStart_ge dayStart w).
      pose proof (clampEnd_le dayEnd w).
      pose proof (clampStart_ge_window dayStart w).
      pose proof (clampEnd_le_window dayEnd w).
      pose proof (windowSlots_aligned _ _ _ _ _ Hhere) as Haligned.
      destruct here as [|s0 here]; [constructor|].
      pose proof (windowSlots_positive _ _ _ _ _ _ Hhere) as Hd.
      apply windowSlots_sorted in Hhere as [_ Hinside].
      apply Forall_forall. intros s Hs.
      eapply Forall_forall in Haligned as (Hlen & _ & Hend); [|exact Hs].
      eapply Forall_forall in Hinside; [|exact Hs]. simpl in Hinside.
      unfold msPerMinute in *.
      split; [lia|]. split; [lia|]. split; [lia|].
      exists w. split; [by left|]. unfold insideWindow. lia.
    + eapply Forall_impl; [by apply IH|].
      intros s (Hpos & Hlo & Hhi & w' & Hw' & Hin).
      repeat (split; [done|]). exists w'. split; [by right|done].
Qed.





(** ** Durations that are not positive *)




(** ** The two computations of the slots agree *)

Lemma filter_filter {A} (f g : A -> bool) (l : list A) :
  List.filter f (List.filter g l) = List.filter (fun x => g x && f x) l.
Proof.
  induction l as [|x l IH]; simpl; [done|].
  destruct (g x); simpl; [|done]. destruct (f x); by rewrite IH.
Qed.

Lemma existsb_map {A B} (f : A -> B) (p : B -> bool) (l : list A) :
  existsb p (List.map f l) = existsb (fun x => p (f x)) l.
Proof. induction l as [|x l IH]; simpl; [done|]. by rewrite IH. Qed.

Lemma slotIsFree_freeOfConflicts activeBookings busyTimes s :
  slotIsFree activeBookings busyTimes s
  = freeOfConflicts (List.map asBookingSlot activeBookings) busyTimes s.
Proof.
  unfold slotIsFree, freeOfConflicts, hasBookingConflict.
  rewrite existsb_map. simpl. by destruct (existsb _ activeBookings).
Qed.

(** X4. On the data [getAvailableSlots] fetches for a host (the windows,
    the bookings kept as active, the busy intervals),
    [computeAvailableSlots] returns the slots of [getAvailableSlots] that
    have not started at the instant it reads, in the same order: the two
    differ by the past-slot test alone. *)
Theorem compute_is_action_without_past fuel tz now ext st slug date d host
    busyTimes slots :
  fetchHostBySlug st slug = Some host ->
  getGoogleBusyTimes ext (host_connectedAccounts host)
    (startOfDay tz date) (endOfDay tz date) = Ok busyTimes ->
  getAvailableSlots fuel tz ext st slug date d = Some (Ok slots) ->
  computeAvailableSlots fuel tz now (default [] (host_availability host))
    (List.map asBookingSlot
       (activeBookingsOf ext host
          (fetchBookingsInRange st (host_id host)
             (startOfDay tz date) (endOfDay tz date))))
    date d busyTimes
  = Some (List.filter (notPast now) slots).
Proof.
  intros Hhost Hbusy. unfold getAvailableSlots. rewrite Hhost, Hbusy.
  rewrite computeAvailableSlots_filter.
  destruct (length _ =? 0)%nat eqn:Hlen.
  - apply Nat.eqb_eq, List.length_zero_iff_nil in Hlen. rewrite Hlen.
    by intros [= <-].
  - intros (allSlots & -> & [= <-])%bind_Some. simpl. f_equal.
    rewrite filter_filter. apply List.filter_ext. intros s.
    rewrite slotIsFree_freeOfConflicts. unfold keptByCompute, notPast.
    apply andb_comm.
Qed.

Lemma compute_is_action_without_past_witness :
  let windows :=
    [Fixtures.window "w1" (Fixtures.at_ 9 0) (Fixtures.at_ 10 0)] in
  computeAvailableSlots 1440 0 (Fixtures.at_ 9 15) windows
    [asBookingSlot (rowOfBooking "bk-1"
       (Fixtures.booking (Fixtures.at_ 8 0) (Fixtures.at_ 9 0) None))]
    (Fixtures.at_ 3 0) 30 []
  = Some [Fixtures.slot (Fixtures.at_ 9 30) (Fixtures.at_ 10 0)].
Proof.
  intros windows.
  assert (Hhost : fetchHostBySlug
            (Fixtures.storeWith windows {[ "bk-1"%string :=
               Fixtures.booking (Fixtures.at_ 8 0) (Fixtures.at_ 9 0) None ]})
            "ada" = Some (hostOfUser "user-ada" (Fixtures.hostWith windows)))
    by (vm_compute; reflexivity).
  pose proof (compute_is_action_without_past 1440 0 (Fixtures.at_ 9 15)
                Fixtures.calendarUp _ "ada" (Fixtures.at_ 3 0) 30 _ []
                [Fixtures.slot (Fixtures.at_ 9 0) (Fixtures.at_ 9 30);
                 Fixtures.slot (Fixtures.at_ 9 30) (Fixtures.at_ 10 0)]
                Hhost) as Hagree.
  vm_compute in Hagree. vm_compute. apply Hagree; reflexivity.
Defined.

(** ** The dates of a range *)

Lemma startOfDay_localDay tz date :
  startOfDay tz date = localDay tz date * msPerDay - tz.
Proof.
  unfold startOfDay, localDay.
  pose proof (Z.div_mod (date + tz) msPerDay). unfold msPerDay in *. lia.
Qed.

Lemma localDay_shift tz date k :
  localDay tz (date + k * msPerDay) = localDay tz date + k.
Proof.
  unfold localDay.
  replace (date + k * msPerDay + tz) with (date + tz + k * msPerDay) by lia.
  by rewrite Z.div_add.
Qed.

Lemma localDay_startOfDay tz date :
  localDay tz (startOfDay tz date) = localDay tz date.
Proof.
  rewrite startOfDay_localDay. generalize (localDay tz date). intros n.
  unfold localDay. replace (n * msPerDay - tz + tz) with (n * msPerDay) by lia.
  by apply Z.div_mul.
Qed.

Lemma startOfDay_idemp tz date :
  startOfDay tz (startOfDay tz date) = startOfDay tz date.
Proof. by rewrite (startOfDay_localDay tz (startOfDay _ _)), localDay_startOfDay,
         <- startOfDay_localDay. Qed.

Lemma startOfDay_shift tz date k :
  startOfDay tz (date + k * msPerDay) = startOfDay tz date + k * msPerDay.
Proof. rewrite !startOfDay_localDay, localDay_shift. lia. Qed.

Lemma startOfDay_mono tz a b : a <= b -> startOfDay tz a <= startOfDay tz b.
Proof.
  intros Hab. rewrite !startOfDay_localDay. unfold localDay.
  assert ((a + tz) / msPerDay <= (b + tz) / msPerDay)
    by (apply Z.div_le_mono; [done|lia]).
  unfold msPerDay in *. lia.
Qed.

Lemma formatYMD_startOfDay tz date :
  formatYMD tz (startOfDay tz date) = formatYMD tz date.
Proof. unfold formatYMD. by rewrite localDay_startOfDay. Qed.

(** The days the loop lists, as instants. *)
Lemma datesLoop_days fuel tz today availability_ bookings endDate d busyTimes
    currentDate dates :
  startOfDay tz currentDate = currentDate ->
  datesLoop fuel tz today availability_ bookings endDate d busyTimes
    currentDate = Some dates ->
  exists days,
    dates = List.map (formatYMD tz) days
    /\ StronglySorted Z.lt days
    /\ Forall (fun day =>
         startOfDay tz day = day
         /\ currentDate <= day <= endDate
         /\ today <= day
         /\ dayHasFreeSlot tz availability_ bookings d busyTimes day) days.
Proof.
  revert currentDate dates.
  induction fuel as [|fuel IH]; intros currentDate dates Hstart; [done|].
  simpl.
  destruct (Z.leb_spec currentDate endDate) as [Hle|Hgt];
    [|intros [= <-]; exists []; repeat split; constructor].
  assert (Hnext : startOfDay tz (addDays currentDate 1) = addDays currentDate 1).
  { unfold addDays. by rewrite startOfDay_shift, Hstart. }
  assert (Hrest : forall rest,
    datesLoop fuel tz today availability_ bookings endDate d busyTimes
      (addDays currentDate 1) = Some rest ->
    exists days,
      rest = List.map (formatYMD tz) days
      /\ StronglySorted Z.lt days
      /\ Forall (fun day =>
           startOfDay tz day = day
           /\ currentDate < day <= endDate
           /\ today <= day
           /\ dayHasFreeSlot tz availability_ bookings d busyTimes day) days).
  { intros rest Hrun.
    destruct (IH _ _ Hnext Hrun) as (days & -> & Hsorted & Hdays).
    exists days. repeat (split; [done|]).
    eapply Forall_impl; [exact Hdays|]. intros day (? & ? & ? & ?).
    unfold addDays, msPerDay in *. repeat split; try done; lia. }
  assert (Hwiden : forall rest,
    datesLoop fuel tz today availability_ bookings endDate d busyTimes
      (addDays currentDate 1) = Some rest ->
    exists days,
      rest = List.map (formatYMD tz) days
      /\ StronglySorted Z.lt days
      /\ Forall (fun day =>
           startOfDay tz day = day
           /\ currentDate <= day <= endDate
           /\ today <= day
           /\ dayHasFreeSlot tz availability_ bookings d busyTimes day) days).
  { intros rest Hrun.
    destruct (Hrest _ Hrun) as (days & -> & Hsorted & Hdays).
    exists days. repeat (split; [done|]).
    eapply Forall_impl; [exact Hdays|]. intros day (? & ? & ? & ?).
    repeat split; try done; lia. }
  destruct (Z.ltb_spec currentDate today) as [Hpast|Hnow]; [apply Hwiden|].
  destruct (0 <? length _)%nat; [|apply Hwiden].
  intros (found & Hfound & (rest & Hrun & Hpush)%bind_Some)%bind_Some.
  destruct found; injection Hpush as <-; [|by apply Hwiden].
  destruct (Hrest _ Hrun) as (days & -> & Hsorted & Hdays).
  exists (currentDate :: days). split; [done|]. split.
  - constructor; [done|]. eapply Forall_impl; [exact Hdays|].
    intros day (? & ? & ? & ?). lia.
  - constructor.
    + split; [done|]. split; [lia|]. split; [lia|]. by exists fuel.
    + eapply Forall_impl; [exact Hdays|]. intros day (? & ? & ? & ?).
      repeat split; try done; lia.
Qed.

(** X5. The dates returned by [computeAvailableDates] are the renderings
    of local days, in strictly increasing order, each between the day of
    [startDate] and [endDate], none before today, and each a day on which
    the probe finds a free slot. *)
Theorem dates_in_range_and_order fuel tz now availability_ bookings startDate
    endDate d busyTimes dates :
  computeAvailableDates fuel tz now availability_ bookings startDate endDate d
    busyTimes = Some dates ->
  exists days,
    dates = List.map (formatYMD tz) days
    /\ StronglySorted Z.lt days
    /\ Forall (fun day =>
         startOfDay tz day = day
         /\ startOfDay tz startDate <= day <= endDate
         /\ startOfDay tz now <= day
         /\ dayHasFreeSlot tz availability_ bookings d busyTimes day) days.
Proof.
  unfold computeAvailableDates. apply datesLoop_days, startOfDay_idemp.
Qed.

Lemma dates_in_range_and_order_witness :
  exists days,
    ["2026-10-30"%string; "2026-11-01"%string]
    = List.map (formatYMD 0) days
    /\ StronglySorted Z.lt days
    /\ Forall (fun day =>
         startOfDay 0 day = day
         /\ startOfDay 0 (Fixtures.at_ 5 0) <= day <= Fixtures.at_ 80 0
         /\ startOfDay 0 (Fixtures.at_ 8 0) <= day
         /\ dayHasFreeSlot 0
              [Fixtures.window "w1" (Fixtures.at_ 9 0) (Fixtures.at_ 10 0);
               Fixtures.window "w2" (Fixtures.at_ 57 0) (Fixtures.at_ 58 0)]
              [] 30 [] day) days.
Proof.
  apply (dates_in_range_and_order 1500 0 (Fixtures.at_ 8 0)
           [Fixtures.window "w1" (Fixtures.at_ 9 0) (Fixtures.at_ 10 0);
            Fixtures.window "w2" (Fixtures.at_ 57 0) (Fixtures.at_ 58 0)]
           [] (Fixtures.at_ 5 0) (Fixtures.at_ 80 0) 30 []).
  vm_compute. reflexivity.
Defined.

(** ** A day with an offered slot is an offered date *)

Lemma startOfDay_endOfDay tz date :
  startOfDay tz (endOfDay tz date) = startOfDay tz date.
Proof.
  unfold endOfDay. rewrite (startOfDay_localDay tz (_ + _)).
  rewrite (startOfDay_localDay tz date) at 2.
  f_equal. f_equal. unfold localDay at 1.
  rewrite startOfDay_localDay. generalize (localDay tz date). intros n.
  replace (n * msPerDay - tz + (msPerDay - 1) + tz)
    with (msPerDay - 1 + n * msPerDay) by lia.
  rewrite Z.div_add by done. reflexivity.
Qed.

Lemma endOfDay_startOfDay tz date :
  endOfDay tz (startOfDay tz date) = endOfDay tz date.
Proof. unfold endOfDay. by rewrite startOfDay_idemp. Qed.

(** Two runs of the probe with different fuel give the same answer. *)
Lemma checkDayHasAvailableSlot_agree fuel fuel' windows bookings dayStart
    dayEnd d busyTimes found found' :
  checkDayHasAvailableSlot fuel windows bookings dayStart dayEnd d busyTimes
    = Some found ->
  checkDayHasAvailableSlot fuel' windows bookings dayStart dayEnd d busyTimes
    = Some found' ->
  found = found'.
Proof.
  intros H1 H2.
  apply (checkDayHasAvailableSlot_mono _ (max fuel fuel')) in H1; [|lia].
  apply (checkDayHasAvailableSlot_mono _ (max fuel fuel')) in H2; [|lia].
  congruence.
Qed.

(** The loop lists every day of the range, from today on, on which the
    probe finds a free slot. *)
Lemma datesLoop_complete k fuel tz today availability_ bookings endDate d
    busyTimes currentDate dates day :
  datesLoop fuel tz today availability_ bookings endDate d busyTimes
    currentDate = Some dates ->
  day = currentDate + Z.of_nat k * msPerDay ->
  day <= endDate -> today <= day ->
  List.filter (onDay (startOfDay tz day) (endOfDay tz day)) availability_
    <> [] ->
  dayHasFreeSlot tz availability_ bookings d busyTimes day ->
  In (formatYMD tz day) dates.
Proof.
  revert fuel currentDate dates.
  induction k as [|k IH]; intros fuel currentDate dates Hrun Hday Hend Htoday
    Hwindows [fuel' Hfree].
  - assert (day = currentDate) as -> by lia.
    destruct fuel as [|fuel]; [done|]. simpl in Hrun.
    destruct (Z.leb_spec currentDate endDate); [|lia].
    destruct (Z.ltb_spec currentDate today); [lia|].
    destruct (0 <? length _)%nat eqn:Hlen.
    2: { exfalso. apply Hwindows, List.length_zero_iff_nil.
         apply Nat.ltb_ge in Hlen. lia. }
    apply bind_Some in Hrun as (found & Hfound & Hrun).
    apply bind_Some in Hrun as (rest & _ & Hpush).
    assert (found = true) as ->
      by (eapply checkDayHasAvailableSlot_agree; [exact Hfound|exact Hfree]).
    injection Hpush as <-. by left.
  - destruct fuel as [|fuel]; [done|]. simpl in Hrun.
    assert (Hnext : day = addDays currentDate 1 + Z.of_nat k * msPerDay)
      by (unfold addDays; lia).
    assert (Hrest : forall rest,
      datesLoop fuel tz today availability_ bookings endDate d busyTimes
        (addDays currentDate 1) = Some rest -> In (formatYMD tz day) rest).
    { intros rest Hrest.
      apply (IH fuel (addDays currentDate 1) rest); try done.
      by exists fuel'. }
    destruct (Z.leb_spec currentDate endDate); [|unfold msPerDay in *; lia].
    destruct (currentDate <? today); [by apply Hrest|].
    destruct (0 <? length _)%nat; [|by apply Hrest].
    apply bind_Some in Hrun as (found & _ & Hrun).
    apply bind_Some in Hrun as (rest & Hrun & Hpush).
    destruct found; injection Hpush as <-; [right|]; by apply Hrest.
Qed.

(** X6. With a positive duration, when [computeAvailableSlots] returns at
    least one slot for a day that lies in the range of
    [computeAvailableDates], that day is among the dates returned for the
    same availability, bookings and busy intervals: a date with an offered
    slot is never missing from the offered dates. *)
Theorem offered_slot_means_offered_date fuel fuel' tz now availability_
    bookings date startDate endDate d busyTimes slots dates :
  0 < d ->
  computeAvailableSlots fuel tz now availability_ bookings date d busyTimes
    = Some slots ->
  slots <> [] ->
  startOfDay tz startDate <= startOfDay tz date ->
  startOfDay tz date <= endDate ->
  computeAvailableDates fuel' tz now availability_ bookings startDate endDate
    d busyTimes = Some dates ->
  In (formatYMD tz date) dates.
Proof.
  intros Hd Hslots Hsome Hfrom Hto Hdates.
  rewrite computeAvailableSlots_filter in Hslots.
  apply fmap_Some in Hslots as (candidates & Hall & ->).
  destruct (List.filter _ candidates) as [|s kept] eqn:Hkept; [done|].
  assert (Hs : In s (List.filter (keptByCompute now bookings busyTimes)
                       candidates)) by (rewrite Hkept; by left).
  apply List.filter_In in Hs as [Hs Hpass].
  apply andb_true_iff in Hpass as [Hnow Hfree].
  apply negb_true_iff, Z.ltb_ge in Hnow.
  pose proof (generateAllSlots_inside _ _ _ _ _ _ Hall) as Hinside.
  apply List.Forall_forall with (x := s) in Hinside
    as (Hpos & Hlo & Hhi & _); [|done].
  set (day := startOfDay tz date).
  assert (Hwindows :
    List.filter (onDay (startOfDay tz day) (endOfDay tz day)) availability_
    <> []).
  { unfold day. rewrite startOfDay_idemp, endOfDay_startOfDay.
    intros Hnil. rewrite Hnil in Hall. injection Hall as <-. destruct Hs. }
  assert (Hprobe : dayHasFreeSlot tz availability_ bookings d busyTimes day).
  { unfold dayHasFreeSlot, day.
    rewrite startOfDay_idemp, endOfDay_startOfDay.
    exists (max fuel 1440).
    destruct (checkDayHasAvailableSlot_total (max fuel 1440)
                (List.filter (onDay (startOfDay tz date) (endOfDay tz date))
                   availability_)
                bookings (startOfDay tz date) (endOfDay tz date) d busyTimes)
      as [found Hfound]; [done|lia|apply day_fits; lia|].
    rewrite Hfound. f_equal.
    apply (generateAllSlots_mono _ (max fuel 1440)) in Hall; [|lia].
    rewrite (checkDayHasAvailableSlot_existsb _ _ _ _ _ _ _ _ _ Hfound Hall).
    apply existsb_exists. by exists s. }
  assert (Htoday : startOfDay tz now <= day).
  { unfold day. rewrite <- (startOfDay_endOfDay tz date).
    apply startOfDay_mono. lia. }
  rewrite <- formatYMD_startOfDay. fold day.
  unfold computeAvailableDates in Hdates.
  apply (datesLoop_complete
           (Z.to_nat (localDay tz date - localDay tz startDate))
           _ _ _ _ _ _ _ _ _ _ _ Hdates); try done.
  unfold day in *. rewrite !startOfDay_localDay in *.
  unfold msPerDay in *. lia.
Qed.

Lemma offered_slot_means_offered_date_witness :
  In "2026-10-30"%string
    ["2026-10-30"%string; "2026-11-01"%string].
Proof.
  apply (offered_slot_means_offered_date 1440 1500 0 (Fixtures.at_ 8 0)
           [Fixtures.window "w1" (Fixtures.at_ 9 0) (Fixtures.at_ 10 0);
            Fixtures.window "w2" (Fixtures.at_ 57 0) (Fixtures.at_ 58 0)]
           [] (Fixtures.at_ 12 0) (Fixtures.at_ 5 0) (Fixtures.at_ 80 0) 30 []
           [Fixtures.slot (Fixtures.at_ 9 0) (Fixtures.at_ 9 30);
            Fixtures.slot (Fixtures.at_ 9 30) (Fixtures.at_ 10 0)]);
    [lia|vm_compute; reflexivity|discriminate
    |vm_compute; discriminate|vm_compute; discriminate
    |vm_compute; reflexivity].
Defined.

(** ** The re-validation and the commit, further *)

(** X7. [checkSlotAvailable] answers that the window is free exactly when
    every stored booking of the host that overlaps the window (half-open)
    was declined by its guest: bookings of other hosts, bookings that only
    touch the window and declined bookings never block, every other
    overlapping booking does. *)
Theorem revalidation_exact ext st host startTime_ endTime_ :
  checkSlotAvailable ext st host startTime_ endTime_ = true <->
  forall id b,
    bookings st !! id = Some b ->
    bk_host b = host_id host ->
    overlaps startTime_ endTime_ (bk_startTime b) (bk_endTime b) = true ->
    attendeeDeclined ext host (rowOfBooking id b) = true.
Proof. apply checkSlotAvailable_true. Qed.

(** What a successful [createBooking] did. *)
Lemma createBooking_Ok_inv ext newId st data id st' :
  createBooking ext newId st data = (Ok id, st') ->
  exists host doc,
    fetchHostBySlug st (hostSlug data) = Some host
    /\ quotaIsExceeded ext (hostSlug data) = false
    /\ checkSlotAvailable ext st host (data_startTime data)
         (data_endTime data) = true
    /\ id = newId
    /\ st' = createBookingDocument st newId doc
    /\ bk_host doc = host_id host
    /\ bk_startTime doc = data_startTime data
    /\ bk_endTime doc = data_endTime data
    /\ bk_guestName doc = guestName data
    /\ bk_guestEmail doc = guestEmail data
    /\ bk_status doc = "confirmed"%string
    /\ bk_notes doc = notes data.
Proof.
  unfold createBooking.
  destruct (fetchHostBySlug _ _) as [host|]; [|done].
  destruct (quotaIsExceeded _ _) eqn:Hquota; [done|].
  destruct (resolveMeetingType _ _) as [meetingTypeId meetingTypeName].
  destruct (checkSlotAvailable _ _ _ _ _) eqn:Hfree; [|done]. simpl.
  destruct (createCalendarEvent _ _ _ _) as [googleEventId meetLink].
  intros [= <- <-]. eexists host, _.
  do 11 (split; [first [reflexivity|exact Hfree]|]). reflexivity.
Qed.

(** X8. Whatever [createBooking] returns, it leaves the users, the meeting
    types and every booking stored under another id as they were; when it
    succeeds, the returned id is the id of the new document, and that
    document carries the host found by the slug, the window, the guest and
    the notes of the request, with status "confirmed". *)
Theorem createBooking_frame ext newId st data r st' :
  createBooking ext newId st data = (r, st') ->
  users st' = users st
  /\ meetingTypes st' = meetingTypes st
  /\ (forall id, id <> newId -> bookings st' !! id = bookings st !! id)
  /\ (forall id, r = Ok id ->
        id = newId
        /\ exists host doc,
             fetchHostBySlug st (hostSlug data) = Some host
             /\ bookings st' !! newId = Some doc
             /\ bk_host doc = host_id host
             /\ bk_startTime doc = data_startTime data
             /\ bk_endTime doc = data_endTime data
             /\ bk_guestName doc = guestName data
             /\ bk_guestEmail doc = guestEmail data
             /\ bk_status doc = "confirmed"%string
             /\ bk_notes doc = notes data).
Proof.
  intros Hrun. destruct r as [id|e].
  - destruct (createBooking_Ok_inv _ _ _ _ _ _ Hrun)
      as (host & doc & Hhost & _ & _ & -> & -> & Hdoc).
    split; [done|]. split; [done|]. split.
    { intros id Hid. simpl. by rewrite lookup_insert_ne. }
    intros id [= <-]. split; [done|]. exists host, doc.
    split; [done|]. split; [apply lookup_insert_eq|exact Hdoc].
  - apply createBooking_failure_keeps_store in Hrun as ->.
    split; [done|]. split; [done|]. split; [done|]. intros id. discriminate.
Qed.

Lemma createBooking_frame_witness :
  let st := Fixtures.storeWith Fixtures.nineToTen
    {[ "bk-1"%string :=
       Fixtures.booking (Fixtures.at_ 9 0) (Fixtures.at_ 9 30) None ]} in
  let st' := snd (createBooking Fixtures.calendarUp "bk-2" st
                    (Fixtures.request (Fixtures.at_ 9 30) (Fixtures.at_ 10 0))) in
  users st' = users st
  /\ bookings st' !! "bk-1"%string = bookings st !! "bk-1"%string
  /\ is_Some (bookings st' !! "bk-2"%string).
Proof.
  intros st st'.
  destruct (createBooking_frame Fixtures.calendarUp "bk-2" st
              (Fixtures.request (Fixtures.at_ 9 30) (Fixtures.at_ 10 0))
              (Ok "bk-2"%string) st')
    as (Husers & _ & Hothers & Hnew); [vm_compute; reflexivity|].
  split; [exact Husers|]. split; [by apply Hothers|].
  destruct (Hnew "bk-2"%string eq_refl) as (_ & host & doc & _ & Hdoc & _).
  by exists doc.
Defined.

Lemma nobodyDeclined_attendee ext host row :
  nobodyDeclined ext -> attendeeDeclined ext host row = false.
Proof.
  intros Hnobody. unfold attendeeDeclined, guestDeclined.
  destruct (usableAccount _) as [account|]; [|done].
  destruct (row_googleEventId row) as [eventId|]; [|apply andb_false_r].
  destruct (row_guestEmail row) as [email|]; [|apply andb_false_r].
  destruct (getEventAttendeeStatus ext account eventId email) as [status|]
    eqn:Hstatus; [|apply andb_false_r].
  destruct (String.eqb_spec status "declined") as [->|]; [|apply andb_false_r].
  by apply Hnobody in Hstatus.
Qed.

Lemma fetchHostBySlug_createBookingDocument st newId doc slug :
  fetchHostBySlug (createBookingDocument st newId doc) slug
  = fetchHostBySlug st slug.
Proof. reflexivity. Qed.

(** X9. After a successful [createBooking], a second request to the same
    host for a window that overlaps the booked one fails with the
    slot-unavailable error and stores nothing, as long as the quota is not
    exceeded and the calendar does not report the first guest as having
    declined. *)
Theorem second_booking_rejected ext ext2 newId newId2 st st' data data2 id :
  createBooking ext newId st data = (Ok id, st') ->
  hostSlug data2 = hostSlug data ->
  overlaps (data_startTime data2) (data_endTime data2)
    (data_startTime data) (data_endTime data) = true ->
  quotaIsExceeded ext2 (hostSlug data2) = false ->
  nobodyDeclined ext2 ->
  createBooking ext2 newId2 st' data2 = (Throw SlotUnavailable, st').
Proof.
  intros Hfirst Hslug Hover Hquota Hnobody.
  destruct (createBooking_Ok_inv _ _ _ _ _ _ Hfirst)
    as (host & doc & Hhost & _ & _ & -> & -> & Hof & Hstart & Hend & _).
  unfold createBooking.
  rewrite fetchHostBySlug_createBookingDocument, Hslug, Hhost.
  rewrite <- Hslug, Hquota.
  destruct (resolveMeetingType _ data2).
  rewrite (checkSlotAvailable_conflict _ _ _ _ _ newId doc); [done| | | |].
  - apply lookup_insert_eq.
  - done.
  - by rewrite Hstart, Hend.
  - by apply nobodyDeclined_attendee.
Qed.

Lemma second_booking_rejected_witness :
  let st := Fixtures.storeWith Fixtures.nineToTen ∅ in
  let st' := snd (createBooking Fixtures.calendarUp "bk-1" st
                    (Fixtures.request (Fixtures.at_ 9 0) (Fixtures.at_ 9 30))) in
  createBooking Fixtures.calendarUp "bk-2" st'
    (Fixtures.request (Fixtures.at_ 9 15) (Fixtures.at_ 9 45))
  = (Throw SlotUnavailable, st').
Proof.
  intros st st'.
  apply (second_booking_rejected Fixtures.calendarUp Fixtures.calendarUp
           "bk-1" "bk-2" st st'
           (Fixtures.request (Fixtures.at_ 9 0) (Fixtures.at_ 9 30))
           (Fixtures.request (Fixtures.at_ 9 15) (Fixtures.at_ 9 45)) "bk-1");
    [vm_compute; reflexivity|reflexivity|vm_compute; reflexivity
    |reflexivity|].
  intros account eventId email. simpl. discriminate.
Defined.



(** ** Users and their availability, further *)

Lemma fetchUserIdByClerkId_None st clerk id u :
  fetchUserIdByClerkId st clerk = None ->
  users st !! id = Some u -> clerkId u <> clerk.
Proof.
  unfold fetchUserIdByClerkId.
  destruct (List.find _ _) as [found|] eqn:Hfind; [done|]. intros _ Hlook.
  apply String.eqb_neq.
  apply (List.find_none _ _ Hfind (id, u)).
  by apply list_elem_of_In, elem_of_map_to_list.
Qed.

Lemma fetchUserIdByClerkId_found st clerk id u :
  users st !! id = Some u -> clerkId u = clerk ->
  is_Some (fetchUserIdByClerkId st clerk).
Proof.
  intros Hlook Hclerk.
  destruct (fetchUserIdByClerkId st clerk) as [found|] eqn:Hfind; [eauto|].
  by destruct (fetchUserIdByClerkId_None _ _ _ _ Hfind Hlook).
Qed.

(** X12. [getOrCreateUser] creates at most one document for an identity:
    called again with the same identity after a successful call, it returns
    the same id and leaves the store as it is, whatever id the store would
    give to a new document. *)
Theorem getOrCreateUser_again session session2 newId newId2 st clerk id st' :
  getOrCreateUser session newId st clerk = (Ok id, st') ->
  getOrCreateUser session2 newId2 st' clerk = (Ok id, st').
Proof.
  unfold getOrCreateUser at 1.
  destruct (fetchUserIdByClerkId st clerk) as [existing|] eqn:Hfound.
  - intros [= <- <-]. unfold getOrCreateUser. by rewrite Hfound.
  - destruct (currentUser session) as [clerkUser|]; [|done].
    intros [= <- <-]. unfold getOrCreateUser.
    destruct (fetchUserIdByClerkId (createUserDocument st newId _) clerk)
      as [again|] eqn:Hagain.
    + apply fetchUserIdByClerkId_Some in Hagain as (u & Hlook & Hclerk).
      simpl in Hlook. destruct (decide (again = newId)) as [->|Hne]; [done|].
      rewrite lookup_insert_ne in Hlook by done.
      by destruct (fetchUserIdByClerkId_None _ _ _ _ Hfound Hlook).
    + exfalso.
      eapply (fetchUserIdByClerkId_None _ _ newId) in Hagain;
        [|apply lookup_insert_eq].
      by apply Hagain.
Qed.

Lemma getOrCreateUser_again_witness :
  let st' := snd (getOrCreateUser (Some Fixtures.ada) "user-1"
                    Fixtures.emptyStore "clerk_ada") in
  getOrCreateUser None "user-2" st' "clerk_ada" = (Ok "user-1"%string, st').
Proof.
  intros st'.
  apply (getOrCreateUser_again (Some Fixtures.ada) None "user-1" "user-2"
           Fixtures.emptyStore "clerk_ada" "user-1" st').
  vm_compute. reflexivity.
Defined.

(** What [saveAvailability] did to the store when the user's document
    existed. *)
Lemma saveAvailability_existing clerkUser newId randomUUID st blocks uid u :
  fetchUserIdByClerkId st (clerk_id clerkUser) = Some uid ->
  users st !! uid = Some u ->
  exists saved,
    saveAvailability (Some clerkUser) newId randomUUID st blocks
    = (Ok saved,
       {| users :=
            <[uid := {| clerkId := clerkId u; user_name := user_name u;
                        user_email := user_email u; user_slug := user_slug u;
                        availability := Some (sanityBlocksOf randomUUID blocks);
                        connectedAccounts := connectedAccounts u |}]>
              (users st);
          bookings := bookings st;
          meetingTypes := meetingTypes st |}).
Proof.
  intros Hfound Hlook. unfold saveAvailability, getOrCreateUser. simpl.
  rewrite Hfound. unfold patchAvailability. rewrite Hlook. eauto.
Qed.

(** X13. [saveAvailability] without a signed-in user throws "Unauthorized"
    and changes nothing. For a signed-in user whose document exists it
    never touches the bookings, the meeting types or the documents of other
    users, and in the user's own document it changes the availability
    only: identity, name, email, slug and connected accounts stay. *)
Theorem saveAvailability_frame :
  (forall newId randomUUID st blocks,
     saveAvailability None newId randomUUID st blocks
     = (Throw Unauthorized, st))
  /\ (forall clerkUser newId randomUUID st blocks uid u r st',
        fetchUserIdByClerkId st (clerk_id clerkUser) = Some uid ->
        users st !! uid = Some u ->
        saveAvailability (Some clerkUser) newId randomUUID st blocks
          = (r, st') ->
        bookings st' = bookings st
        /\ meetingTypes st' = meetingTypes st
        /\ (forall id, id <> uid -> users st' !! id = users st !! id)
        /\ exists u',
             users st' !! uid = Some u'
             /\ clerkId u' = clerkId u
             /\ user_name u' = user_name u
             /\ user_email u' = user_email u
             /\ user_slug u' = user_slug u
             /\ connectedAccounts u' = connectedAccounts u).
Proof.
  split; [done|].
  intros * Hfound Hlook Hrun.
  destruct (saveAvailability_existing clerkUser newId randomUUID st blocks
              uid u Hfound Hlook) as (saved & Hsaved).
  rewrite Hsaved in Hrun. injection Hrun as <- <-. simpl.
  split; [done|]. split; [done|]. split.
  - intros id Hid. by rewrite lookup_insert_ne.
  - eexists. split; [apply lookup_insert_eq|]. done.
Qed.

Lemma saveAvailability_frame_witness :
  let st := Fixtures.storeWith Fixtures.nineToFive
    {[ "bk-1"%string :=
       Fixtures.booking (Fixtures.at_ 9 0) (Fixtures.at_ 9 30) None ]} in
  let st' := snd (saveAvailability (Some Fixtures.ada) "user-new"
                    (fun _ => "key-1"%string) st []) in
  bookings st' = bookings st
  /\ exists u', users st' !! "user-ada"%string = Some u'
                /\ user_slug u' = Some "ada"%string
                /\ connectedAccounts u' = Some [Fixtures.account].
Proof.
  intros st st'.
  destruct saveAvailability_frame as (_ & Hframe).
  destruct (Hframe Fixtures.ada "user-new"%string (fun _ => "key-1"%string)
              st [] "user-ada"%string
              (Fixtures.hostWith Fixtures.nineToFive)
              (fst (saveAvailability (Some Fixtures.ada) "user-new"
                      (fun _ => "key-1"%string) st [])) st')
    as (Hbookings & _ & _ & u' & Hu' & _ & _ & _ & Hslug & Haccounts);
    [vm_compute; reflexivity ..|].
  split; [exact Hbookings|]. exists u'. repeat split; assumption.
Defined.




(** ** Slugs *)

Example generateSlug_examples :
  generateSlug "Ada Lovelace" = "ada-lovelace"%string
  /\ generateSlug "  30-Minute  Call!! " = "30-minute-call"%string
  /\ generateSlug "???" = ""%string
  /\ generateSlug "Intro (Q&A)" = "intro-q-a"%string.
Proof. vm_compute. repeat split; reflexivity. Qed.

Lemma isSlugChar_not_hyphen c : isSlugChar c = true -> c <> hyphen.
Proof. intros Hc ->. vm_compute in Hc. discriminate. Qed.

Lemma hyphenate_alphabet inRun text : slugAlphabet (hyphenate inRun text).
Proof.
  revert inRun. induction text as [|c text IH]; intros inRun; simpl.
  - constructor.
  - destruct (isSlugChar c) eqn:Hc.
    + constructor; [by left|apply IH].
    + destruct inRun; [apply IH|]. constructor; [by right|apply IH].
Qed.

(** Inside a run no hyphen comes first; nowhere do two hyphens follow each
    other. *)
Lemma hyphenate_shape inRun text :
  noDoubleHyphen (hyphenate inRun text)
  /\ (inRun = true -> head (hyphenate inRun text) <> Some hyphen).
Proof.
  revert inRun. induction text as [|c text IH]; intros inRun; simpl.
  - split; [done|]. by intros _.
  - destruct (isSlugChar c) eqn:Hc.
    + destruct (IH false) as [Hno _]. split.
      * destruct (hyphenate false text) as [|b rest] eqn:Hrest; [done|].
        split; [|done]. intros [-> _]. by apply isSlugChar_not_hyphen in Hc.
      * intros _ [= ->]. by apply isSlugChar_not_hyphen in Hc.
    + destruct (IH true) as [Hno Hhead]. destruct inRun.
      * split; [done|]. intros _. by apply Hhead.
      * split; [|done].
        destruct (hyphenate true text) as [|b rest] eqn:Hrest; [done|].
        split; [|done]. intros [_ ->]. by apply Hhead.
Qed.

Lemma noDoubleHyphen_tail c text :
  noDoubleHyphen (c :: text) -> noDoubleHyphen text.
Proof. destruct text; [done|]. by intros [_ ?]. Qed.

Lemma stripLeadingHyphen_shape text :
  noDoubleHyphen text ->
  noDoubleHyphen (stripLeadingHyphen text)
  /\ head (stripLeadingHyphen text) <> Some hyphen.
Proof.
  destruct text as [|c text]; [done|]. simpl. intros Hno.
  destruct (Ascii.eqb_spec c hyphen) as [->|Hne].
  - split; [by eapply noDoubleHyphen_tail|].
    destruct text as [|b text]; [done|]. simpl. intros [= ->].
    destruct Hno as [Hno _]. by apply Hno.
  - split; [done|]. simpl. by intros [= ->].
Qed.

Lemma stripTrailingHyphen_nil b text :
  stripTrailingHyphen (b :: text) = [] -> text = [] /\ b = hyphen.
Proof.
  destruct text as [|b2 text]; simpl; [|done].
  by destruct (Ascii.eqb_spec b hyphen).
Qed.

Lemma stripTrailingHyphen_head b text b' rest :
  stripTrailingHyphen (b :: text) = b' :: rest -> b' = b.
Proof.
  destruct text as [|b2 text]; simpl.
  - destruct (Ascii.eqb b hyphen); [done|]. by intros [= ->].
  - by intros [= ->].
Qed.

Lemma stripTrailingHyphen_shape text :
  noDoubleHyphen text ->
  noDoubleHyphen (stripTrailingHyphen text)
  /\ (head text <> Some hyphen ->
      head (stripTrailingHyphen text) <> Some hyphen)
  /\ last (stripTrailingHyphen text) <> Some hyphen.
Proof.
  induction text as [|c text IH]; [done|]. intros Hno.
  destruct text as [|b text].
  - simpl. destruct (Ascii.eqb_spec c hyphen) as [->|Hne]; [done|].
    split; [done|]. split; [done|]. simpl. by intros [= ->].
  - destruct (IH (noDoubleHyphen_tail _ _ Hno)) as (IHno & IHhead & IHlast).
    change (stripTrailingHyphen (c :: b :: text))
      with (c :: stripTrailingHyphen (b :: text)).
    destruct Hno as [Hpair _].
    destruct (stripTrailingHyphen (b :: text)) as [|b' rest] eqn:Hrest.
    + apply stripTrailingHyphen_nil in Hrest as [_ ->].
      split; [done|]. split; [done|]. simpl. intros [= ->]. by apply Hpair.
    + apply stripTrailingHyphen_head in Hrest as ->.
      split; [by split|]. split; [done|].
      rewrite last_cons.
      destruct (last (b :: rest)) eqn:Hlast; [exact IHlast|].
      by apply last_None in Hlast.
Qed.

Lemma stripTrailingHyphen_alphabet text :
  slugAlphabet text -> slugAlphabet (stripTrailingHyphen text).
Proof.
  induction 1 as [|c text Hc Htext IH]; [constructor|].
  destruct text as [|b text].
  - simpl. destruct (Ascii.eqb c hyphen); [constructor|].
    constructor; [done|constructor].
  - change (stripTrailingHyphen (c :: b :: text))
      with (c :: stripTrailingHyphen (b :: text)). by constructor.
Qed.

Lemma noDoubleHyphen_firstn n text :
  noDoubleHyphen text -> noDoubleHyphen (firstn n text).
Proof.
  revert n. induction text as [|a text IH]; intros n Hno; [by destruct n|].
  destruct n as [|n]; [done|]. simpl.
  specialize (IH n (noDoubleHyphen_tail _ _ Hno)).
  destruct text as [|b text]; [by destruct n|].
  destruct n as [|n]; [done|]. simpl in *. split; [apply Hno|apply IH].
Qed.

(** The shape of what [slugChars] returns. *)
Lemma slugChars_shape text :
  slugAlphabet (slugChars text)
  /\ (length (slugChars text) <= 50)%nat
  /\ head (slugChars text) <> Some hyphen
  /\ noDoubleHyphen (slugChars text)
  /\ ((length (slugChars text) < 50)%nat ->
      last (slugChars text) <> Some hyphen).
Proof.
  unfold slugChars.
  set (collapsed := hyphenate false (List.map toLowerChar text)).
  pose proof (hyphenate_alphabet false (List.map toLowerChar text)) as Halpha.
  destruct (hyphenate_shape false (List.map toLowerChar text)) as [Hno _].
  fold collapsed in Halpha, Hno.
  destruct (stripLeadingHyphen_shape _ Hno) as [Hno1 Hhead1].
  assert (Halpha1 : slugAlphabet (stripLeadingHyphen collapsed)).
  { destruct collapsed as [|c rest]; [constructor|]. simpl.
    destruct (Ascii.eqb c hyphen); [by inversion Halpha|done]. }
  destruct (stripTrailingHyphen_shape _ Hno1) as (Hno2 & Hhead2 & Hlast2).
  pose proof (stripTrailingHyphen_alphabet _ Halpha1) as Halpha2.
  set (stripped := stripTrailingHyphen (stripLeadingHyphen collapsed)) in *.
  split; [|split; [|split; [|split]]].
  - by apply Forall_take.
  - apply List.firstn_le_length.
  - specialize (Hhead2 Hhead1). destruct stripped; [done|]. done.
  - by apply noDoubleHyphen_firstn.
  - intros Hshort. rewrite List.firstn_all2; [done|].
    destruct (Nat.le_gt_cases (length stripped) 50) as [|Hlong]; [done|].
    rewrite List.length_firstn in Hshort. lia.
Qed.

Lemma toLowerChar_slug c :
  isSlugChar c = true \/ c = hyphen -> toLowerChar c = c.
Proof.
  intros Hc. unfold toLowerChar.
  replace (isUpperChar c) with false; [done|]. symmetry.
  destruct Hc as [Hc| ->]; [|done].
  unfold isSlugChar, isLowerChar, isDigitChar, isUpperChar in *.
  apply orb_true_iff in Hc as [Hc|Hc];
    apply andb_true_iff in Hc as [Hlo Hhi];
    apply Nat.leb_le in Hlo, Hhi; apply andb_false_iff;
    rewrite !Nat.leb_gt; lia.
Qed.

Lemma hyphenate_fixed inRun text :
  slugAlphabet text -> noDoubleHyphen text ->
  (inRun = true -> head text <> Some hyphen) ->
  hyphenate inRun text = text.
Proof.
  intros Halpha. revert inRun.
  induction Halpha as [|c text Hc Htext IH]; intros inRun Hno Hhead; [done|].
  simpl. destruct Hc as [Hc| ->].
  - rewrite Hc. f_equal. apply IH; [by eapply noDoubleHyphen_tail|done].
  - replace (isSlugChar hyphen) with false by done.
    destruct inRun; [by destruct Hhead|]. f_equal.
    apply IH; [by eapply noDoubleHyphen_tail|]. intros _.
    destruct text as [|b text]; [done|]. simpl. intros [= ->].
    destruct Hno as [Hno _]. by apply Hno.
Qed.

Lemma stripTrailingHyphen_fixed text :
  last text <> Some hyphen -> stripTrailingHyphen text = text.
Proof.
  induction text as [|c text IH]; [done|].
  destruct text as [|b text].
  - simpl. intros Hlast.
    destruct (Ascii.eqb_spec c hyphen) as [->|]; [by destruct Hlast|done].
  - rewrite last_cons_cons. intros Hlast.
    change (stripTrailingHyphen (c :: b :: text))
      with (c :: stripTrailingHyphen (b :: text)). by rewrite IH.
Qed.

Lemma slugChars_fixed text :
  slugAlphabet text -> noDoubleHyphen text ->
  head text <> Some hyphen -> last text <> Some hyphen ->
  (length text <= 50)%nat ->
  slugChars text = text.
Proof.
  intros Halpha Hno Hhead Hlast Hlen. unfold slugChars.
  assert (List.map toLowerChar text = text) as ->.
  { clear -Halpha. induction Halpha as [|c text Hc _ IH]; [done|].
    simpl. by rewrite IH, toLowerChar_slug. }
  rewrite hyphenate_fixed by done.
  assert (stripLeadingHyphen text = text) as ->.
  { destruct text as [|c text]; [done|]. simpl.
    destruct (Ascii.eqb_spec c hyphen) as [->|]; [by destruct Hhead|done]. }
  rewrite stripTrailingHyphen_fixed by done.
  by apply List.firstn_all2.
Qed.

(** X14. The slug [generateSlug] returns for any text has at most 50
    characters, all of them lower-case letters, digits or hyphens, never
    starts with a hyphen and never has two hyphens in a row; it can end
    with a hyphen only when it was cut at 50 characters. *)
Theorem generateSlug_shape text :
  let slug := String.list_ascii_of_string (generateSlug text) in
  slugAlphabet slug
  /\ (length slug <= 50)%nat
  /\ head slug <> Some hyphen
  /\ noDoubleHyphen slug
  /\ ((length slug < 50)%nat -> last slug <> Some hyphen).
Proof.
  unfold generateSlug. cbv zeta.
  rewrite String.list_ascii_of_string_of_list_ascii.
  apply slugChars_shape.
Qed.

(** A slug of 50 characters may end with a hyphen, and is then not what
    [generateSlug] makes of itself. *)
Example generateSlug_cut :
  let text :=
    "aaaaaaaaaaaaaaaaaaaaaaaaaaaaaaaaaaaaaaaaaaaaaaaaa b"%string in
  generateSlug text
  = "aaaaaaaaaaaaaaaaaaaaaaaaaaaaaaaaaaaaaaaaaaaaaaaaa-"%string
  /\ generateSlug (generateSlug text)
     = "aaaaaaaaaaaaaaaaaaaaaaaaaaaaaaaaaaaaaaaaaaaaaaaaa"%string.
Proof. vm_compute. split; reflexivity. Qed.

(** X15. A slug that does not end with a hyphen is left unchanged by
    [generateSlug]: making the slug of a slug changes nothing, except for
    the hyphen a cut at 50 characters may have left at the end. *)
Theorem generateSlug_idempotent text :
  last (String.list_ascii_of_string (generateSlug text)) <> Some hyphen ->
  generateSlug (generateSlug text) = generateSlug text.
Proof.
  unfold generateSlug at 1 2 3.
  rewrite !String.list_ascii_of_string_of_list_ascii. intros Hlast.
  destruct (slugChars_shape (String.list_ascii_of_string text))
    as (Halpha & Hlen & Hhead & Hno & _).
  by rewrite slugChars_fixed.
Qed.

Lemma generateSlug_idempotent_witness :
  generateSlug (generateSlug "  30-Minute  Call!! ")
  = generateSlug "  30-Minute  Call!! ".
Proof.
  apply generateSlug_idempotent. vm_compute. discriminate.
Defined.

(** X16. [getBaseUrl] never returns the empty string, and an environment
    variable set to the empty string counts as unset: the result depends
    on the two variables only through their non-empty values, VERCEL_URL
    (behind "https://") before NEXT_PUBLIC_APP_URL (as it is) before the
    local default. *)
Theorem getBaseUrl_never_empty env :
  getBaseUrl env <> EmptyString
  /\ getBaseUrl env
     = getBaseUrl
         {| VERCEL_URL :=
              if truthy (VERCEL_URL env) then VERCEL_URL env else None;
            NEXT_PUBLIC_APP_URL :=
              if truthy (NEXT_PUBLIC_APP_URL env)
              then NEXT_PUBLIC_APP_URL env else None |}
  /\ (truthy (VERCEL_URL env) = true ->
      String.prefix "https://" (getBaseUrl env) = true).
Proof.
  destruct env as [[[|a v]|] [[|b n]|]]; by vm_compute.
Qed.

Example getBaseUrl_empty_variable :
  getBaseUrl {| VERCEL_URL := Some ""%string;
                NEXT_PUBLIC_APP_URL := Some "https://calvero.example"%string |}
  = "https://calvero.example"%string.
Proof. reflexivity. Qed.
